(** * ChatBot front end: the API client layer and the job-polling page

    A shallow embedding of the two pieces of the repository that carry
    logic:
    - the axios facade ([chatApi], [indexApi]) that builds the backend
      requests, and
    - the long-running test page whose script starts a batch job and polls
      its status.

    JavaScript values are modelled by [JsVal]; the parts of the language
    runtime that are not code of this repository (how a number prints, the
    UTF-16 code units of a string, the text of a [TypeError]) are the fields
    of [JsEngine]. *)

From Stdlib Require Import Floats.
From Stdlib Require Uint63.
From stdpp Require Import gmap strings list fin_maps pretty.

Open Scope string_scope.
Open Scope list_scope.

#[local] Set Warnings "-register-all,-inexact-float".

(** ** JavaScript values *)

(** The values that flow through the client: JSON data, [undefined],
    [Error] instances and the [File] picked in a file input.  Numbers are
    IEEE 754 binary64, as in the language. *)
Inductive JsVal : Type :=
  | JUndefined
  | JNull
  | JBool (b : bool)
  | JNumber (x : float)
  | JString (s : string)
  | JArray (items : list JsVal)
  | JObject (props : gmap string JsVal)
  | JError (name message : string)
  | JFile (filename : string).

(** What the runtime, not the repository, decides. *)
Class JsEngine : Type := {
  (** [Number.prototype.toString()], also used by template literals *)
  number_to_string : float -> string;
  (** [Number.prototype.toString(radix)] *)
  number_to_string_radix : float -> Z -> string;
  (** [Number.prototype.toFixed(digits)] *)
  number_toFixed : float -> Z -> string;
  (** [parseFloat] *)
  parseFloat : string -> float;
  (** message of the [TypeError] for a property read on [null] or [undefined] *)
  cannot_read_message : JsVal -> string -> string;
  (** message of the [TypeError] for a call of something that is no function *)
  not_a_function_message : string -> string;
  (** message of the [TypeError] for a value that has no string *)
  cannot_convert_message : JsVal -> string;
  (** the UTF-16 code units of a string, each as a string of its own *)
  code_units : string -> list string
}.

Definition is_nan (x : float) : bool := negb (PrimFloat.eqb x x).

(** ToBoolean *)
Definition truthy (v : JsVal) : bool :=
  match v with
  | JUndefined | JNull => false
  | JBool b => b
  | JNumber x => negb (PrimFloat.eqb x 0%float || is_nan x)
  | JString s => negb (String.eqb s "")
  | JArray _ | JObject _ | JError _ _ | JFile _ => true
  end.

(** [a || b] *)
Definition js_or (a b : JsVal) : JsVal := if truthy a then a else b.

(** [typeof v] *)
Definition typeof (v : JsVal) : string :=
  match v with
  | JUndefined => "undefined"
  | JBool _ => "boolean"
  | JNumber _ => "number"
  | JString _ => "string"
  | JNull | JArray _ | JObject _ | JError _ _ | JFile _ => "object"
  end.

(** [v === s] for a string literal [s] *)
Definition strict_eq_str (v : JsVal) (s : string) : bool :=
  match v with
  | JString t => String.eqb t s
  | _ => false
  end.

(** [v !== undefined] *)
Definition is_defined (v : JsVal) : bool :=
  match v with
  | JUndefined => false
  | _ => true
  end.

(** A parameter written [p = d] takes [d] when the argument is [undefined]. *)
Definition default_param (arg d : JsVal) : JsVal :=
  match arg with
  | JUndefined => d
  | _ => arg
  end.

Definition number_of_nat (n : nat) : float :=
  PrimFloat.of_uint63 (Uint63.of_Z (Z.of_nat n)).

Fixpoint digits_value (acc : nat) (s : string) : option nat :=
  match s with
  | EmptyString => Some acc
  | String c rest =>
      let n := Ascii.nat_of_ascii c in
      if (48 <=? n)%nat && (n <=? 57)%nat
      then digits_value (10 * acc + (n - 48)) rest
      else None
  end.

(** The array index a property key stands for: a key is an index when it is
    the decimal numeral of a number, without sign or leading zero. *)
Definition index_of_key (key : string) : option nat :=
  match key with
  | EmptyString => None
  | _ =>
      match digits_value 0 key with
      | Some n => if String.eqb (pretty n) key then Some n else None
      | None => None
      end
  end.

Fixpoint join_with (sep : string) (parts : list string) : string :=
  match parts with
  | [] => ""
  | [p] => p
  | p :: rest => p +:+ sep +:+ join_with sep rest
  end.

(** [str.startsWith(sub)] *)
Fixpoint starts_with (sub str : string) : bool :=
  match sub with
  | EmptyString => true
  | String c sub' =>
      match str with
      | EmptyString => false
      | String d str' => Ascii.eqb c d && starts_with sub' str'
      end
  end.

(** [str.includes(sub)] *)
Fixpoint includes (str sub : string) : bool :=
  starts_with sub str ||
  match str with
  | EmptyString => false
  | String _ rest => includes rest sub
  end.

(** The own enumerable properties of an array (or of the characters of a
    string): the indices, as property keys. *)
Definition indexed_props (items : list JsVal) : gmap string JsVal :=
  list_to_map (imap (fun i v => (pretty i, v)) items).

Definition is_nullish (v : JsVal) : bool :=
  match v with
  | JUndefined | JNull => true
  | _ => false
  end.

Section Values.
Context `{JsEngine}.

(** The characters of a string as the language indexes them. *)
Definition chars_of (s : string) : list JsVal := map JString (code_units s).

(** [{...v}]: the properties an object spread copies out of [v]. *)
Definition spread (v : JsVal) : gmap string JsVal :=
  match v with
  | JObject props => props
  | JArray items => indexed_props items
  | JString s => indexed_props (chars_of s)
  | JUndefined | JNull | JBool _ | JNumber _ | JError _ _ | JFile _ => ∅
  end.

(** ToString, as a template literal applies it; [None] where it throws a
    [TypeError].  A plain object prints through [Object.prototype.toString]
    unless it has a [toString] of its own: data holds no function, so an
    own [toString] is not callable, [valueOf] gives no primitive either, and
    the conversion throws.  An array prints its elements, [null] and
    [undefined] as nothing, and throws when one of them does. *)
Fixpoint ToString (v : JsVal) : option string :=
  match v with
  | JUndefined => Some "undefined"
  | JNull => Some "null"
  | JBool true => Some "true"
  | JBool false => Some "false"
  | JNumber x => Some (number_to_string x)
  | JString s => Some s
  | JArray items =>
      match
        (fix elements (l : list JsVal) : option (list string) :=
           match l with
           | [] => Some []
           | x :: rest =>
               match
                 match x with
                 | JUndefined | JNull => Some ""
                 | _ => ToString x
                 end
               with
               | Some part =>
                   match elements rest with
                   | Some parts => Some (part :: parts)
                   | None => None
                   end
               | None => None
               end
           end) items
      with
      | Some parts => Some (join_with "," parts)
      | None => None
      end
  | JObject props =>
      match props !! "toString" with
      | Some _ => None
      | None => Some "[object Object]"
      end
  | JError name message =>
      Some (if String.eqb message "" then name
            else if String.eqb name "" then message
            else name +:+ ": " +:+ message)
  | JFile _ => Some "[object File]"
  end.

(** Whether a value has a string. *)
Definition prints (v : JsVal) : bool :=
  match ToString v with
  | Some _ => true
  | None => false
  end.

(** The string of a value that has one (and the empty string for the
    others, which the code never gets to use: see [str] in the two
    modules). *)
Definition to_string (v : JsVal) : string := default "" (ToString v).

(** The [TypeError] of a conversion to string that fails. *)
Definition convert_error (v : JsVal) : JsVal :=
  JError "TypeError" (cannot_convert_message v).

(** [v.key] on a value that is neither [null] nor [undefined], for a key
    that names no built-in member (as all keys the code reads); data
    carries no methods, so a method is handled where it is called. *)
Definition read_prop (v : JsVal) (key : string) : JsVal :=
  match v with
  | JObject props => default JUndefined (props !! key)
  | JArray items =>
      if String.eqb key "length" then JNumber (number_of_nat (length items))
      else
        match index_of_key key with
        | Some i => default JUndefined (items !! i)
        | None => JUndefined
        end
  | JString s =>
      if String.eqb key "length" then JNumber (number_of_nat (length (code_units s)))
      else
        match index_of_key key with
        | Some i => default JUndefined (chars_of s !! i)
        | None => JUndefined
        end
  | JError name message =>
      if String.eqb key "message" then JString message
      else if String.eqb key "name" then JString name
      else JUndefined
  | JFile filename =>
      if String.eqb key "name" then JString filename else JUndefined
  | JUndefined | JNull | JBool _ | JNumber _ => JUndefined
  end.

(** The [TypeError] of [v.key] for a nullish [v]. *)
Definition read_error (v : JsVal) (key : string) : JsVal :=
  JError "TypeError" (cannot_read_message v key).

(** What [FormData.append] stores for a value: a file as it is, anything
    else as its string; [None] where the conversion throws. *)
Definition form_entry (v : JsVal) : option JsVal :=
  match v with
  | JFile _ => Some v
  | _ =>
      match ToString v with
      | Some text => Some (JString text)
      | None => None
      end
  end.

End Values.

(** How a piece of code ends: it returns a value or it throws one. *)
Inductive Result (A : Type) : Type :=
  | Returned (a : A)
  | Thrown (e : JsVal).
Arguments Returned {A} a.
Arguments Thrown {A} e.

(** ** The API client (axios facade) *)

Module Client.

Inductive Method : Type := GET | POST | DELETE.

(** The instance [axios.create] returns: its base URL and default headers. *)
Record AxiosInstance : Type := {
  baseURL : JsVal;
  default_headers : gmap string string
}.

(** The data argument of a request: absent, a value sent as JSON, or a
    [FormData] with its entries in the order they were appended. *)
Inductive Body : Type :=
  | NoBody
  | JsonBody (v : JsVal)
  | FormBody (entries : list (string * JsVal)).

(** The per-request config; an absent config, or an absent field of it, is
    the empty map. *)
Record RequestConfig : Type := {
  params : gmap string JsVal;
  headers : gmap string string
}.

Definition no_config : RequestConfig := {| params := ∅; headers := ∅ |}.

Record Request : Type := {
  client : AxiosInstance;
  method : Method;
  url : string;
  body : Body;
  config : RequestConfig
}.

Record AxiosResponse : Type := {
  data : JsVal;
  status : nat
}.

(** How the awaited HTTP call ends: it resolves with a response or it
    throws. *)
Inductive Outcome : Type :=
  | Resolved (response : AxiosResponse)
  | Rejected (error : JsVal).

Inductive Level : Type := LLog | LError.

(** What a facade method does that is visible from outside. *)
Inductive Event : Type :=
  | Log (level : Level) (args : list JsVal)
  | Http (req : Request).

(** Everything outside the module: the build-time environment variable, the
    backend (free to answer differently as the history grows) and
    [Math.random]. *)
Record World : Type := {
  REACT_APP_API_URL : JsVal;
  backend : list Event -> Request -> Outcome;
  Math_random : list Event -> float
}.

(** A computation reads the history so far and yields the events it adds
    and how it ends. *)
Definition M (A : Type) : Type := list Event -> list Event * Result A.

Definition ret {A} (a : A) : M A := fun _ => ([], Returned a).

Definition throw {A} (e : JsVal) : M A := fun _ => ([], Thrown e).

Definition bind {A B} (m : M A) (k : A -> M B) : M B :=
  fun h =>
    match m h with
    | (ev, Returned a) =>
        let (ev', r) := k a (h ++ ev) in (ev ++ ev', r)
    | (ev, Thrown e) => (ev, Thrown e)
    end.

(** [try { m } catch (error) { handler error }] *)
Definition try_catch {A} (m : M A) (handler : JsVal -> M A) : M A :=
  fun h =>
    match m h with
    | (ev, Returned a) => (ev, Returned a)
    | (ev, Thrown e) =>
        let (ev', r) := handler e (h ++ ev) in (ev ++ ev', r)
    end.

Definition emit (e : Event) : M unit := fun _ => ([e], Returned tt).

Declare Scope js_scope.
Delimit Scope js_scope with js.
Notation "x <- m ;; k" := (bind m (fun x => k))
  (at level 100, m at next level, right associativity) : js_scope.
Notation "m ;; k" := (bind m (fun _ => k))
  (at level 100, right associativity) : js_scope.
Open Scope js_scope.

Definition console_log (args : list JsVal) : M unit := emit (Log LLog args).
Definition console_error (args : list JsVal) : M unit := emit (Log LError args).

Definition events {A} (r : list Event * Result A) : list Event := fst r.
Definition result {A} (r : list Event * Result A) : Result A := snd r.

(** The requests among some events, in order. *)
Fixpoint http_requests (evs : list Event) : list Request :=
  match evs with
  | [] => []
  | Http req :: rest => req :: http_requests rest
  | Log _ _ :: rest => http_requests rest
  end.

Section Facade.
Context `{JsEngine} (W : World).

Definition API_URL : JsVal :=
  js_or (REACT_APP_API_URL W) (JString "http://localhost:8005").

Definition api : AxiosInstance :=
  {| baseURL := API_URL;
     default_headers := {[ "Content-Type" := "application/json" ]} |}.

(** The awaited call of an instance method: the request is issued and the
    backend's outcome for it is the response or the exception. *)
Definition request (inst : AxiosInstance) (m : Method) (u : string)
    (b : Body) (c : RequestConfig) : M AxiosResponse :=
  fun h =>
    let req := {| client := inst; method := m; url := u; body := b; config := c |} in
    ([Http req],
     match backend W h req with
     | Resolved response => Returned response
     | Rejected error => Thrown error
     end).

Definition axios_post (inst : AxiosInstance) := request inst POST.
Definition axios_get (inst : AxiosInstance) (u : string) := request inst GET u NoBody no_config.
Definition axios_delete (inst : AxiosInstance) (u : string) := request inst DELETE u NoBody.

(** [Math.random()] *)
Definition random : M float := fun h => ([], Returned (Math_random W h)).

(** [v.key], throwing on [null] and [undefined] *)
Definition get_prop (v : JsVal) (key : string) : M JsVal :=
  if is_nullish v then throw (read_error v key) else ret (read_prop v key).

(** [a && b], [b] evaluated only when [a] is truthy *)
Definition js_and (a : JsVal) (b : M JsVal) : M JsVal :=
  if truthy a then b else ret a.

(** A substitution of a template literal: the string of [v], or the
    [TypeError] of the conversion. *)
Definition str (v : JsVal) : M string :=
  match ToString v with
  | Some text => ret text
  | None => throw (convert_error v)
  end.

(** [formData.append(name, v)] *)
Definition form_append (entries : list (string * JsVal)) (name : string) (v : JsVal)
    : M (list (string * JsVal)) :=
  match form_entry v with
  | Some entry => ret (entries ++ [(name, entry)])
  | None => throw (convert_error v)
  end.

(** [v.includes(sub)] for a [v] that is a string *)
Definition string_includes (v : JsVal) (sub : string) : bool :=
  match v with
  | JString s => includes s sub
  | _ => false
  end.

(** *** chatApi *)

Definition sendMessage (message responseMode sessionId systemPrompt promptStyle : JsVal)
    : M JsVal :=
  let responseMode := default_param responseMode (JString "rag") in
  let sessionId := default_param sessionId JNull in
  let systemPrompt := default_param systemPrompt JNull in
  let promptStyle := default_param promptStyle (JString "default") in
  try_catch
    ((* Generate a random session ID if not provided *)
     session_id <-
       (if truthy sessionId then ret sessionId
        else
          r <- random ;;
          ret (JString ("session_" +:+
                        String.substring 2 13 (number_to_string_radix r 36)))) ;;
     id_text <- str session_id ;;
     mode_text <- str responseMode ;;
     style_text <- str promptStyle ;;
     console_log
       [JString ("Sending chat request with session_id: " +:+ id_text +:+
                 ", mode: " +:+ mode_text +:+
                 ", promptStyle: " +:+ style_text)] ;;
     (if truthy systemPrompt then
        len <- get_prop systemPrompt "length" ;;
        len_text <- str len ;;
        console_log
          [JString ("Using custom system prompt (" +:+ len_text +:+ " chars)")]
      else ret tt) ;;
     (* Map UI response mode to backend mode parameter *)
     let mode :=
       if strict_eq_str responseMode "standard" then "no_rag"
       else if strict_eq_str responseMode "compare" then "compare"
       else "rag" in
     (* Prepare request payload, including system_prompt if provided *)
     let payload : gmap string JsVal :=
       <[ "prompt_style" := promptStyle ]>
         (<[ "mode" := JString mode ]>
            (<[ "session_id" := session_id ]>
               (<[ "message" := message ]> ∅))) in
     let payload :=
       if truthy systemPrompt then <[ "system_prompt" := systemPrompt ]> payload
       else payload in
     response <- axios_post api "/chat" (JsonBody (JObject payload)) no_config ;;
     (* Return the response data along with the session ID *)
     ret (JObject (<[ "session_id" := session_id ]> (spread (data response)))))
    (fun error =>
       console_error [JString "Error sending message:"; error] ;;
       throw error).

Definition runTests (testData : JsVal) : M JsVal :=
  let testData := default_param testData JNull in
  try_catch
    (c <- js_and testData
            (js_and (JBool (String.eqb (typeof testData) "object"))
               (get_prop testData "prompt")) ;;
     if truthy c then
       (* Case 1: Single prompt test with expected result *)
       prompt <- get_prop testData "prompt" ;;
       expected <- get_prop testData "expected_result" ;;
       response <-
         axios_post api "/test/single"
           (JsonBody (JObject (<[ "expected_result" := js_or expected (JString "") ]>
                                 (<[ "prompt" := prompt ]> ∅))))
           no_config ;;
       ret (data response)
     else if String.eqb (typeof testData) "string" then
       (* Case 2: String filepath *)
       if negb (string_includes testData ".csv") then
         response <-
           axios_post api "/test/single"
             (JsonBody (JObject (<[ "test_file" := testData ]> ∅))) no_config ;;
         ret (data response)
       else
         response <-
           axios_post api "/chat/batch-test"
             (JsonBody (JObject (<[ "test_file" := testData ]> ∅)))
             {| params := <[ "similarity_threshold" := JNumber 0.7%float ]> ∅;
                headers := ∅ |} ;;
         ret (data response)
     else
       (* Case 3: No test data (default test) *)
       response <- axios_post api "/test/single" NoBody no_config ;;
       ret (data response))
    (fun error =>
       console_error [JString "Error running chat tests:"; error] ;;
       throw error).

Definition startBatchTest (file similarityThreshold : JsVal) : M JsVal :=
  let similarityThreshold := default_param similarityThreshold (JNumber 0.7%float) in
  try_catch
    (formData <- form_append [] "csv_file" file ;;
     threshold_text <- str similarityThreshold ;;
     response <-
       axios_post api
         ("/test/batch/start?similarity_threshold=" +:+ threshold_text)
         (FormBody formData)
         {| params := ∅;
            headers := <[ "Content-Type" := "multipart/form-data" ]> ∅ |} ;;
     ret (data response))
    (fun error =>
       console_error [JString "Error starting batch test:"; error] ;;
       throw error).

Definition getTestJobStatus (jobId : JsVal) : M JsVal :=
  try_catch
    (id_text <- str jobId ;;
     response <- axios_get api ("/test/jobs/" +:+ id_text) ;;
     ret (data response))
    (fun error =>
       console_error [JString "Error getting test job status:"; error] ;;
       throw error).

Definition getAllTestJobs : M JsVal :=
  try_catch
    (response <- axios_get api "/test/jobs" ;;
     ret (data response))
    (fun error =>
       console_error [JString "Error listing test jobs:"; error] ;;
       throw error).

(** *** indexApi *)

Definition clearCache (olderThanDays : JsVal) : M JsVal :=
  let olderThanDays := default_param olderThanDays JNull in
  try_catch
    (let params : gmap string JsVal :=
       if truthy olderThanDays then <[ "older_than_days" := olderThanDays ]> ∅
       else ∅ in
     response <-
       axios_delete api "/chat/cache" {| params := params; headers := ∅ |} ;;
     ret (data response))
    (fun error =>
       console_error [JString "Error clearing cache:"; error] ;;
       throw error).

Definition getCacheStats : M JsVal :=
  try_catch
    (response <- axios_get api "/chat/cache/stats" ;;
     ret (data response))
    (fun error =>
       console_error [JString "Error fetching cache stats:"; error] ;;
       throw error).

Definition indexGoogleDrive (folderId recursive enhancedSlides : JsVal) : M JsVal :=
  let folderId := default_param folderId JNull in
  let recursive := default_param recursive (JBool true) in
  let enhancedSlides := default_param enhancedSlides (JBool false) in
  try_catch
    (let params : gmap string JsVal := ∅ in
     let params := if truthy folderId then <[ "folder_id" := folderId ]> params else params in
     let params :=
       if is_defined recursive then <[ "recursive" := recursive ]> params else params in
     let params :=
       if is_defined enhancedSlides then <[ "enhanced_slides" := enhancedSlides ]> params
       else params in
     response <-
       axios_post api "/index/google-drive" (JsonBody (JObject ∅))
         {| params := params; headers := ∅ |} ;;
     ret (data response))
    (fun error =>
       console_error [JString "Error indexing Google Drive:"; error] ;;
       throw error).

Definition listGoogleDriveFiles : M JsVal :=
  try_catch
    (response <- axios_get api "/index/google-drive/files" ;;
     ret (data response))
    (fun error =>
       console_error [JString "Error listing Google Drive files:"; error] ;;
       throw error).

Definition indexShopify (shopifyDomain : JsVal) : M JsVal :=
  let shopifyDomain := default_param shopifyDomain JNull in
  try_catch
    (response <-
       axios_post api "/index/"
         (JsonBody (JObject (<[ "store" := shopifyDomain ]> ∅))) no_config ;;
     ret (data response))
    (fun error =>
       console_error [JString "Error indexing Shopify:"; error] ;;
       throw error).

Definition listShopifyContent : M JsVal :=
  try_catch
    (response <- axios_get api "/index/" ;;
     ret (data response))
    (fun error =>
       console_error [JString "Error listing Shopify content:"; error] ;;
       throw error).

Definition deleteDocument (documentId : JsVal) : M JsVal :=
  try_catch
    (id_text <- str documentId ;;
     response <-
       axios_delete api ("/index/document/" +:+ id_text) no_config ;;
     ret (data response))
    (fun error =>
       console_error [JString "Error deleting document:"; error] ;;
       throw error).

Definition healthCheck : M JsVal :=
  try_catch
    (response <- axios_get api "/health" ;;
     ret (data response))
    (fun error =>
       console_error [JString "Health check failed:"; error] ;;
       throw error).

(** A call of one of the facade methods with its arguments; an argument
    left out is [JUndefined]. *)
Inductive Call : Type :=
  | SendMessage (message responseMode sessionId systemPrompt promptStyle : JsVal)
  | RunTests (testData : JsVal)
  | StartBatchTest (file similarityThreshold : JsVal)
  | GetTestJobStatus (jobId : JsVal)
  | GetAllTestJobs
  | ClearCache (olderThanDays : JsVal)
  | GetCacheStats
  | IndexGoogleDrive (folderId recursive enhancedSlides : JsVal)
  | ListGoogleDriveFiles
  | IndexShopify (shopifyDomain : JsVal)
  | ListShopifyContent
  | DeleteDocument (documentId : JsVal)
  | HealthCheck.

Definition invoke (c : Call) : M JsVal :=
  match c with
  | SendMessage message responseMode sessionId systemPrompt promptStyle =>
      sendMessage message responseMode sessionId systemPrompt promptStyle
  | RunTests testData => runTests testData
  | StartBatchTest file similarityThreshold => startBatchTest file similarityThreshold
  | GetTestJobStatus jobId => getTestJobStatus jobId
  | GetAllTestJobs => getAllTestJobs
  | ClearCache olderThanDays => clearCache olderThanDays
  | GetCacheStats => getCacheStats
  | IndexGoogleDrive folderId recursive enhancedSlides =>
      indexGoogleDrive folderId recursive enhancedSlides
  | ListGoogleDriveFiles => listGoogleDriveFiles
  | IndexShopify shopifyDomain => indexShopify shopifyDomain
  | ListShopifyContent => listShopifyContent
  | DeleteDocument documentId => deleteDocument documentId
  | HealthCheck => healthCheck
  end.

Definition is_sendMessage (c : Call) : bool :=
  match c with
  | SendMessage _ _ _ _ _ => true
  | _ => false
  end.

End Facade.

End Client.

(** ** The long-running test page *)

Module JobPage.

(** The only function the page ever hands to [setInterval]. *)
Inductive Callback : Type := CheckJobStatus.

Record Timer : Type := {
  callback : Callback;
  delay : Z
}.

Inductive Level : Type := LLog | LError.

(** The script's two variables, the properties of the elements it writes,
    the window's interval timers, and what it printed and alerted.  A
    property holds the text the script last assigned to it (or the text the
    document came with); what the browser makes of an assignment, dropping
    a width that is no CSS length or re-serialising markup, is outside the
    model. *)
Record Page : Type := {
  jobId : JsVal;
  pollInterval : option nat;
  startButton_disabled : bool;
  progressContainer_display : string;
  progressBar_width : string;
  jobStatus_textContent : string;
  resultDiv_innerHTML : string;
  timers : gmap nat Timer;
  next_timer : nat;
  console : list (Level * list JsVal);
  alerts : list string
}.

(** The page as loaded: the inline styles are empty (the style sheet hides
    the progress container), and the result box holds its markup, line
    breaks included. *)
Definition initial : Page :=
  {| jobId := JNull;
     pollInterval := None;
     startButton_disabled := false;
     progressContainer_display := "";
     progressBar_width := "";
     jobStatus_textContent := "Starting job...";
     resultDiv_innerHTML :=
       String (Ascii.ascii_of_nat 10) "    <p>Results will appear here...</p>" +:+
       String (Ascii.ascii_of_nat 10) "  ";
     timers := ∅;
     next_timer := 1;
     console := [];
     alerts := [] |}.

Definition with_jobId (v : JsVal) (p : Page) : Page :=
  {| jobId := v; pollInterval := pollInterval p;
     startButton_disabled := startButton_disabled p;
     progressContainer_display := progressContainer_display p;
     progressBar_width := progressBar_width p;
     jobStatus_textContent := jobStatus_textContent p;
     resultDiv_innerHTML := resultDiv_innerHTML p;
     timers := timers p; next_timer := next_timer p;
     console := console p; alerts := alerts p |}.

Definition with_pollInterval (v : option nat) (p : Page) : Page :=
  {| jobId := jobId p; pollInterval := v;
     startButton_disabled := startButton_disabled p;
     progressContainer_display := progressContainer_display p;
     progressBar_width := progressBar_width p;
     jobStatus_textContent := jobStatus_textContent p;
     resultDiv_innerHTML := resultDiv_innerHTML p;
     timers := timers p; next_timer := next_timer p;
     console := console p; alerts := alerts p |}.

Definition with_startButton_disabled (v : bool) (p : Page) : Page :=
  {| jobId := jobId p; pollInterval := pollInterval p;
     startButton_disabled := v;
     progressContainer_display := progressContainer_display p;
     progressBar_width := progressBar_width p;
     jobStatus_textContent := jobStatus_textContent p;
     resultDiv_innerHTML := resultDiv_innerHTML p;
     timers := timers p; next_timer := next_timer p;
     console := console p; alerts := alerts p |}.

Definition with_progressContainer_display (v : string) (p : Page) : Page :=
  {| jobId := jobId p; pollInterval := pollInterval p;
     startButton_disabled := startButton_disabled p;
     progressContainer_display := v;
     progressBar_width := progressBar_width p;
     jobStatus_textContent := jobStatus_textContent p;
     resultDiv_innerHTML := resultDiv_innerHTML p;
     timers := timers p; next_timer := next_timer p;
     console := console p; alerts := alerts p |}.

Definition with_progressBar_width (v : string) (p : Page) : Page :=
  {| jobId := jobId p; pollInterval := pollInterval p;
     startButton_disabled := startButton_disabled p;
     progressContainer_display := progressContainer_display p;
     progressBar_width := v;
     jobStatus_textContent := jobStatus_textContent p;
     resultDiv_innerHTML := resultDiv_innerHTML p;
     timers := timers p; next_timer := next_timer p;
     console := console p; alerts := alerts p |}.

Definition with_jobStatus_textContent (v : string) (p : Page) : Page :=
  {| jobId := jobId p; pollInterval := pollInterval p;
     startButton_disabled := startButton_disabled p;
     progressContainer_display := progressContainer_display p;
     progressBar_width := progressBar_width p;
     jobStatus_textContent := v;
     resultDiv_innerHTML := resultDiv_innerHTML p;
     timers := timers p; next_timer := next_timer p;
     console := console p; alerts := alerts p |}.

Definition with_resultDiv_innerHTML (v : string) (p : Page) : Page :=
  {| jobId := jobId p; pollInterval := pollInterval p;
     startButton_disabled := startButton_disabled p;
     progressContainer_display := progressContainer_display p;
     progressBar_width := progressBar_width p;
     jobStatus_textContent := jobStatus_textContent p;
     resultDiv_innerHTML := v;
     timers := timers p; next_timer := next_timer p;
     console := console p; alerts := alerts p |}.

Definition with_timers (v : gmap nat Timer) (n : nat) (p : Page) : Page :=
  {| jobId := jobId p; pollInterval := pollInterval p;
     startButton_disabled := startButton_disabled p;
     progressContainer_display := progressContainer_display p;
     progressBar_width := progressBar_width p;
     jobStatus_textContent := jobStatus_textContent p;
     resultDiv_innerHTML := resultDiv_innerHTML p;
     timers := v; next_timer := n;
     console := console p; alerts := alerts p |}.

Definition with_console (v : list (Level * list JsVal)) (p : Page) : Page :=
  {| jobId := jobId p; pollInterval := pollInterval p;
     startButton_disabled := startButton_disabled p;
     progressContainer_display := progressContainer_display p;
     progressBar_width := progressBar_width p;
     jobStatus_textContent := jobStatus_textContent p;
     resultDiv_innerHTML := resultDiv_innerHTML p;
     timers := timers p; next_timer := next_timer p;
     console := v; alerts := alerts p |}.

Definition with_alerts (v : list string) (p : Page) : Page :=
  {| jobId := jobId p; pollInterval := pollInterval p;
     startButton_disabled := startButton_disabled p;
     progressContainer_display := progressContainer_display p;
     progressBar_width := progressBar_width p;
     jobStatus_textContent := jobStatus_textContent p;
     resultDiv_innerHTML := resultDiv_innerHTML p;
     timers := timers p; next_timer := next_timer p;
     console := console p; alerts := v |}.

(** A handler body: it changes the page and returns or throws. *)
Definition P (A : Type) : Type := Page -> Page * Result A.

Definition ret {A} (a : A) : P A := fun p => (p, Returned a).

Definition throw {A} (e : JsVal) : P A := fun p => (p, Thrown e).

Definition bind {A B} (m : P A) (k : A -> P B) : P B :=
  fun p =>
    match m p with
    | (p', Returned a) => k a p'
    | (p', Thrown e) => (p', Thrown e)
    end.

(** [try { m } catch (error) { handler error }] *)
Definition try_catch {A} (m : P A) (handler : JsVal -> P A) : P A :=
  fun p =>
    match m p with
    | (p', Returned a) => (p', Returned a)
    | (p', Thrown e) => handler e p'
    end.

Definition update (f : Page -> Page) : P unit := fun p => (f p, Returned tt).

Definition read {A} (f : Page -> A) : P A := fun p => (p, Returned (f p)).

Declare Scope page_scope.
Delimit Scope page_scope with page.
Notation "x <- m ;; k" := (bind m (fun x => k))
  (at level 100, m at next level, right associativity) : page_scope.
Notation "m ;; k" := (bind m (fun _ => k))
  (at level 100, right associativity) : page_scope.
Open Scope page_scope.

Definition console_error (args : list JsVal) : P unit :=
  update (fun p => with_console (console p ++ [(LError, args)]) p).

Definition alert (text : string) : P unit :=
  update (fun p => with_alerts (alerts p ++ [text]) p).

(** [setInterval(cb, ms)]: a new timer under a new handle. *)
Definition setInterval (cb : Callback) (ms : Z) : P nat :=
  fun p =>
    let handle := next_timer p in
    (with_timers (<[ handle := {| callback := cb; delay := ms |} ]> (timers p))
       (S handle) p,
     Returned handle).

(** [clearInterval(handle)]: the timer is gone; nothing happens for [null]
    or a handle that names no timer. *)
Definition clearInterval (handle : option nat) : P unit :=
  update (fun p =>
    match handle with
    | Some h => with_timers (delete h (timers p)) (next_timer p) p
    | None => p
    end).

(** What [fetch] is asked for; the body, when there is one, is a
    [FormData]. *)
Record FetchRequest : Type := {
  fetch_url : string;
  fetch_method : string;
  fetch_body : option (list (string * JsVal))
}.

(** How [response.json()] settles: with the parsed body, or rejected with
    an error when the body is no JSON. *)
Inductive JsonOutcome : Type :=
  | JsonParsed (v : JsVal)
  | JsonRejected (name message : string).

Record Response : Type := {
  ok : bool;
  status : nat;
  statusText : string;
  json : JsonOutcome
}.

(** How [fetch] settles: rejected with an error (a network failure), or
    resolved with a response, whatever its status. *)
Inductive FetchOutcome : Type :=
  | FetchRejected (name message : string)
  | FetchResolved (response : Response).

Definition newline : string := String (Ascii.ascii_of_nat 10) EmptyString.

Section Script.
Context `{JsEngine}.

(** [await fetch(...)] once the fetch has settled *)
Definition await_fetch (o : FetchOutcome) : P Response :=
  match o with
  | FetchRejected name message => throw (JError name message)
  | FetchResolved response => ret response
  end.

(** [await response.json()] *)
Definition await_json (response : Response) : P JsVal :=
  match json response with
  | JsonParsed v => ret v
  | JsonRejected name message => throw (JError name message)
  end.

(** [v.key], throwing on [null] and [undefined] *)
Definition get_prop (v : JsVal) (key : string) : P JsVal :=
  if is_nullish v then throw (read_error v key) else ret (read_prop v key).

(** [v?.key] *)
Definition get_prop_opt (v : JsVal) (key : string) : P JsVal :=
  if is_nullish v then ret JUndefined else ret (read_prop v key).

(** [v?.toFixed(digits)]: only a number has the method, and data holds
    no function; [expr] is the source text of [v]. *)
Definition toFixed_opt (expr : string) (v : JsVal) (digits : Z) : P JsVal :=
  match v with
  | JUndefined | JNull => ret JUndefined
  | JNumber x => ret (JString (number_toFixed x digits))
  | _ => throw (JError "TypeError" (not_a_function_message (expr +:+ ".toFixed")))
  end.

(** A substitution of a template literal: the string of [v], or the
    [TypeError] of the conversion. *)
Definition str (v : JsVal) : P string :=
  match ToString v with
  | Some text => ret text
  | None => throw (convert_error v)
  end.

(** The click listener of the start button, up to its first [await]:
    [files] holds the names of the files in [fileInput.files] and [value]
    is [thresholdInput.value].  Nothing in this part of the [try] block can
    throw: the threshold is a number and the form entry is a file. *)
Definition startButton_click (files : list string) (value : string)
    : Page -> Page * option FetchRequest :=
  fun p =>
    match files with
    | [] =>
        (with_alerts (alerts p ++ ["Please select a CSV file first."]) p, None)
    | file :: _ =>
        let threshold := parseFloat value in
        (* Disable button while job is running *)
        let p := with_startButton_disabled true p in
        (* Show progress container *)
        let p := with_progressContainer_display "block" p in
        let p := with_progressBar_width "0%" p in
        let p := with_jobStatus_textContent "Starting job..." p in
        let p := with_resultDiv_innerHTML "<p>Job starting...</p>" p in
        (* Create form data *)
        let formData := [("csv_file", JFile file)] in
        (* Start the batch test job *)
        (p, Some {| fetch_url :=
                      "/test/batch/start?similarity_threshold=" +:+
                      number_to_string threshold;
                    fetch_method := "POST";
                    fetch_body := Some formData |})
    end.

(** The catch block of the click listener. *)
Definition startButton_click_catch (error : JsVal) : P unit :=
  console_error [JString "Error starting job:"; error] ;;
  message <- get_prop error "message" ;;
  text <- str message ;;
  update (with_jobStatus_textContent ("Error: " +:+ text)) ;;
  message <- get_prop error "message" ;;
  text <- str message ;;
  update (with_resultDiv_innerHTML ("<p>Error: " +:+ text +:+ "</p>")) ;;
  update (with_startButton_disabled false).

(** The rest of the click listener, run when the fetch has settled. *)
Definition startButton_click_resume (o : FetchOutcome) : P unit :=
  try_catch
    (response <- await_fetch o ;;
     (if negb (ok response) then
        throw (JError "Error"
                 ("Error starting job: " +:+ pretty (status response) +:+ " " +:+
                  statusText response))
      else ret tt) ;;
     jobData <- await_json response ;;
     job_id <- get_prop jobData "job_id" ;;
     update (with_jobId job_id) ;;
     id <- read jobId ;;
     id_text <- str id ;;
     update (with_jobStatus_textContent ("Job started with ID: " +:+ id_text)) ;;
     id <- read jobId ;;
     id_text <- str id ;;
     update (with_resultDiv_innerHTML ("<p>Job started with ID: " +:+ id_text +:+ "</p>")) ;;
     (* Start polling for job status *)
     handle <- setInterval CheckJobStatus 5000 ;;
     update (with_pollInterval (Some handle)))
    startButton_click_catch.

(** The catch block of [checkJobStatus]. *)
Definition checkJobStatus_catch (error : JsVal) : P unit :=
  console_error [JString "Error checking job status:"; error] ;;
  message <- get_prop error "message" ;;
  text <- str message ;;
  update (with_jobStatus_textContent ("Error checking status: " +:+ text)).

(** [checkJobStatus], up to its first [await]: without a job id it
    returns at once; otherwise it asks for the job, unless the job id has
    no string, in which case the URL's template literal throws into the
    catch block and nothing is asked. *)
Definition checkJobStatus_begin (p : Page) : Page * option FetchRequest :=
  if negb (truthy (jobId p)) then (p, None)
  else
    match ToString (jobId p) with
    | Some id_text =>
        (p, Some {| fetch_url := "/test/jobs/" +:+ id_text;
                    fetch_method := "GET";
                    fetch_body := None |})
    | None => (fst (checkJobStatus_catch (convert_error (jobId p)) p), None)
    end.

(** The request a tick issues, if any. *)
Definition checkJobStatus_start (p : Page) : option FetchRequest :=
  snd (checkJobStatus_begin p).

(** The rest of [checkJobStatus], run when the fetch has settled.  The
    page is read again only after the body has been parsed, so the two
    [await]s are taken in one step. *)
Definition checkJobStatus_resume (o : FetchOutcome) : P unit :=
  try_catch
    (response <- await_fetch o ;;
     (if negb (ok response) then
        throw (JError "Error"
                 ("Error checking job: " +:+ pretty (status response) +:+ " " +:+
                  statusText response))
      else ret tt) ;;
     jobData <- await_json response ;;
     (* Update progress bar *)
     progress <- get_prop jobData "progress" ;;
     (if is_defined progress then
        progress <- get_prop jobData "progress" ;;
        progress_text <- str progress ;;
        update (with_progressBar_width (progress_text +:+ "%"))
      else ret tt) ;;
     (* Update status message *)
     status <- get_prop jobData "status" ;;
     status_text <- str status ;;
     message <- get_prop jobData "message" ;;
     message_text <- str (js_or message (JString "")) ;;
     update (with_jobStatus_textContent
               ("Status: " +:+ status_text +:+ " - " +:+ message_text)) ;;
     (* If job completed or failed, stop polling *)
     status <- get_prop jobData "status" ;;
     if strict_eq_str status "completed" then
       handle <- read pollInterval ;;
       clearInterval handle ;;
       update (with_startButton_disabled false) ;;
       (* Format and display results *)
       r <- get_prop jobData "result" ;;
       let result := js_or r (JObject ∅) in
       total_tests <- get_prop result "total_tests" ;;
       total_text <- str (js_or total_tests (JNumber 0%float)) ;;
       passed <- get_prop result "passed" ;;
       passed_text <- str (js_or passed (JNumber 0%float)) ;;
       failed <- get_prop result "failed" ;;
       failed_text <- str (js_or failed (JNumber 0%float)) ;;
       pass_rate <- get_prop result "pass_rate" ;;
       pass_rate <- toFixed_opt "result.pass_rate" pass_rate 2 ;;
       rate_text <- str (js_or pass_rate (JNumber 0%float)) ;;
       duration <- get_prop jobData "duration_seconds" ;;
       duration <- toFixed_opt "jobData.duration_seconds" duration 2 ;;
       duration_text <- str (js_or duration (JString "?")) ;;
       let indent := "            " in
       let resultHtml :=
         newline +:+ indent +:+ "<h3>Test Results</h3>" +:+
         newline +:+ indent +:+ "<p>Total tests: " +:+ total_text +:+ "</p>" +:+
         newline +:+ indent +:+ "<p>Passed: " +:+ passed_text +:+ "</p>" +:+
         newline +:+ indent +:+ "<p>Failed: " +:+ failed_text +:+ "</p>" +:+
         newline +:+ indent +:+ "<p>Pass rate: " +:+ rate_text +:+ "%</p>" +:+
         newline +:+ indent +:+ "<p>Duration: " +:+ duration_text +:+ " seconds</p>" +:+
         newline +:+ "          " in
       update (with_resultDiv_innerHTML resultHtml)
     else if strict_eq_str status "failed" then
       handle <- read pollInterval ;;
       clearInterval handle ;;
       update (with_startButton_disabled false) ;;
       error <- get_prop jobData "error" ;;
       message <- get_prop_opt error "message" ;;
       message_text <- str (js_or message (JString "Unknown error")) ;;
       update (with_resultDiv_innerHTML ("<p>Job failed: " +:+ message_text +:+ "</p>"))
     else ret tt)
    checkJobStatus_catch.

(** One thing happening to the page: a click on the start button, the
    start request settling, a tick of an interval timer, or a status
    request settling.  Handlers are suspended at their [await]s, so a
    settling may come at any later moment and with any outcome; every
    interleaving the event loop allows is a path of [step]. *)
Inductive step : Page -> Page -> Prop :=
  | step_click (files : list string) (value : string) (p : Page) :
      step p (fst (startButton_click files value p))
  | step_started (o : FetchOutcome) (p : Page) :
      step p (fst (startButton_click_resume o p))
  | step_tick (p : Page) :
      step p (fst (checkJobStatus_begin p))
  | step_checked (o : FetchOutcome) (p : Page) :
      step p (fst (checkJobStatus_resume o p)).

Inductive reachable : Page -> Prop :=
  | reachable_initial : reachable initial
  | reachable_step (p p' : Page) : reachable p -> step p p' -> reachable p'.

End Script.

End JobPage.

(** ** What the specification says, in its own terms *)

Module Spec.
Import Client.

(** The backend mode for a UI response mode. *)
Definition mode_for (responseMode : JsVal) : string :=
  match responseMode with
  | JString s =>
      if String.eqb s "standard" then "no_rag"
      else if String.eqb s "compare" then "compare"
      else "rag"
  | _ => "rag"
  end.

(** How [runTests] is to dispatch on the shape of its argument: the URL,
    the body and the request config. *)
Definition dispatch (testData : JsVal) : string * Body * RequestConfig :=
  match testData with
  | JObject props =>
      if truthy (default JUndefined (props !! "prompt")) then
        ("/test/single",
         JsonBody (JObject (<[ "expected_result" :=
                                 js_or (default JUndefined (props !! "expected_result"))
                                       (JString "") ]>
                              (<[ "prompt" := default JUndefined (props !! "prompt") ]> ∅))),
         no_config)
      else ("/test/single", NoBody, no_config)
  | JString s =>
      if includes s ".csv" then
        ("/chat/batch-test",
         JsonBody (JObject (<[ "test_file" := JString s ]> ∅)),
         {| params := <[ "similarity_threshold" := JNumber 0.7%float ]> ∅;
            headers := ∅ |})
      else
        ("/test/single", JsonBody (JObject (<[ "test_file" := JString s ]> ∅)), no_config)
  | _ => ("/test/single", NoBody, no_config)
  end.

(** An endpoint of the interface list: a fixed path, or a prefix that an
    id follows. *)
Inductive Pattern : Type :=
  | Exactly (path : string)
  | WithId (prefix : string).

(** The endpoints the specification enumerates; the two cache endpoints
    come with their methods. *)
Definition endpoints : list (option Method * Pattern) :=
  [ (None, Exactly "/chat");
    (None, Exactly "/test/single");
    (None, Exactly "/chat/batch-test");
    (None, Exactly "/test/batch/start");
    (None, WithId "/test/jobs/");
    (None, Exactly "/test/jobs");
    (Some DELETE, Exactly "/chat/cache");
    (Some GET, Exactly "/chat/cache/stats");
    (None, Exactly "/index/google-drive");
    (None, Exactly "/index/google-drive/files");
    (None, Exactly "/index/");
    (None, WithId "/index/document/");
    (None, Exactly "/health") ].

(** The path of a URL: what comes before its query string. *)
Fixpoint url_path (u : string) : string :=
  match u with
  | EmptyString => EmptyString
  | String c rest =>
      if Ascii.eqb c (Ascii.ascii_of_nat 63) then EmptyString
      else String c (url_path rest)
  end.

Definition method_eqb (a b : Method) : bool :=
  match a, b with
  | GET, GET | POST, POST | DELETE, DELETE => true
  | _, _ => false
  end.

Definition targets (m : Method) (u : string) (e : option Method * Pattern) : bool :=
  match fst e with
  | Some m' => method_eqb m m'
  | None => true
  end &&
  match snd e with
  | Exactly path => String.eqb (url_path u) path
  | WithId prefix => starts_with prefix u
  end.

Definition enumerated (req : Request) : bool :=
  existsb (targets (method req) (url req)) endpoints.

Section Runs.
Context `{JsEngine} (W : World).

(** The client-side session id: the argument when there is one, else a
    generated string. *)
Definition session_id_of (sessionId : JsVal) (h : list Event) : JsVal :=
  if truthy sessionId then sessionId
  else JString ("session_" +:+
                String.substring 2 13 (number_to_string_radix (Math_random W h) 36)).

(** The payload of a chat request: the four fields that are always
    there, and the system prompt when there is one. *)
Definition chat_payload (message responseMode sessionId systemPrompt promptStyle : JsVal)
    (h : list Event) : gmap string JsVal :=
  let always : gmap string JsVal :=
    <[ "message" := message ]>
      (<[ "session_id" := session_id_of sessionId h ]>
         (<[ "mode" := JString (mode_for responseMode) ]>
            (<[ "prompt_style" := default_param promptStyle (JString "default") ]> ∅))) in
  if truthy systemPrompt then <[ "system_prompt" := systemPrompt ]> always else always.

(** What [sendMessage] prints before it posts. *)
Definition chat_logs (responseMode sessionId systemPrompt promptStyle : JsVal)
    (h : list Event) : list Event :=
  Log LLog
    [JString ("Sending chat request with session_id: " +:+
              to_string (session_id_of sessionId h) +:+
              ", mode: " +:+ to_string (default_param responseMode (JString "rag")) +:+
              ", promptStyle: " +:+
              to_string (default_param promptStyle (JString "default")))] ::
  (if truthy systemPrompt then
     [Log LLog
        [JString ("Using custom system prompt (" +:+
                  to_string (read_prop systemPrompt "length") +:+ " chars)")]]
   else []).

(** The log lines of [sendMessage] can be written: the session id, the
    response mode, the prompt style and, with a system prompt, its length
    have strings. *)
Definition chat_prints (responseMode sessionId systemPrompt promptStyle : JsVal) : bool :=
  prints sessionId && prints responseMode && prints promptStyle &&
  (if truthy systemPrompt then prints (read_prop systemPrompt "length") else true).

(** The arguments a call puts into a template literal or a form have
    strings, so the call gets as far as its request. *)
Definition call_prints (c : Call) : bool :=
  match c with
  | SendMessage _ responseMode sessionId systemPrompt promptStyle =>
      chat_prints responseMode sessionId systemPrompt promptStyle
  | StartBatchTest file similarityThreshold =>
      match form_entry file with Some _ => true | None => false end &&
      prints similarityThreshold
  | GetTestJobStatus jobId => prints jobId
  | DeleteDocument documentId => prints documentId
  | _ => true
  end.

(** The value a call returns for a response; [sid] is the session id of
    [sendMessage]. *)
Definition returned_value (c : Call) (sid : JsVal) (r : AxiosResponse) : JsVal :=
  if is_sendMessage c then JObject (<[ "session_id" := sid ]> (spread (data r)))
  else data r.

(** A run that prints [pre], issues [req] and ends as the backend's
    answer to it decides. *)
Definition one_request (pre : list Event) (req : Request) (msg : string)
    (value : AxiosResponse -> JsVal) (h : list Event) : list Event * Result JsVal :=
  match backend W (h ++ pre) req with
  | Resolved r => (pre ++ [Http req], Returned (value r))
  | Rejected e => (pre ++ [Http req; Log LError [JString msg; e]], Thrown e)
  end.

End Runs.

(** [ev] put before the events of a run. *)
Definition prepend {A} (ev : list Event) (r : list Event * Result A) : list Event * Result A :=
  (ev ++ fst r, snd r).

(** The lines printed with [console.error] among some events, in order. *)
Fixpoint error_logs (evs : list Event) : list (list JsVal) :=
  match evs with
  | [] => []
  | Log LError args :: rest => args :: error_logs rest
  | Log LLog _ :: rest => error_logs rest
  | Http _ :: rest => error_logs rest
  end.

End Spec.

(** ** What the specification says about the page *)

Module PageSpec.
Import JobPage.

(** The part of the page the poll loop lives in: the timers, the handle
    the script keeps, the start button and the job id. *)
Record Polling : Type := {
  p_timers : gmap nat Timer;
  p_next_timer : nat;
  p_pollInterval : option nat;
  p_disabled : bool;
  p_jobId : JsVal
}.

Definition polling (p : Page) : Polling :=
  {| p_timers := timers p;
     p_next_timer := next_timer p;
     p_pollInterval := pollInterval p;
     p_disabled := startButton_disabled p;
     p_jobId := jobId p |}.

(** A computation that leaves the poll loop alone, however it ends. *)
Definition preserves {A} (m : P A) : Prop :=
  forall p, polling (fst (m p)) = polling p.

(** The body a settled fetch delivers to the script: the parsed body of a
    response that is ok.  For a status check this is the status response. *)
Definition ok_body (o : FetchOutcome) : option JsVal :=
  match o with
  | FetchRejected _ _ => None
  | FetchResolved response =>
      if ok response then
        match json response with
        | JsonParsed jobData => Some jobData
        | JsonRejected _ _ => None
        end
      else None
  end.

Section WithEngine.
Context `{JsEngine}.

(** A status response is terminal: it has a [status], and that is the
    string [completed] or the string [failed]. *)
Definition is_terminal (jobData : JsVal) : bool :=
  negb (is_nullish jobData) &&
  (strict_eq_str (read_prop jobData "status") "completed" ||
   strict_eq_str (read_prop jobData "status") "failed").

(** The poll loop torn down: the timer under the kept handle cleared and
    the start button enabled. *)
Definition torn_down (s : Polling) : Polling :=
  {| p_timers := match p_pollInterval s with
                 | Some handle => delete handle (p_timers s)
                 | None => p_timers s
                 end;
     p_next_timer := p_next_timer s;
     p_pollInterval := p_pollInterval s;
     p_disabled := false;
     p_jobId := p_jobId s |}.

(** The poll loop started for the job of [jobData]. *)
Definition started (jobData : JsVal) (s : Polling) : Polling :=
  {| p_timers := <[ p_next_timer s := {| callback := CheckJobStatus; delay := 5000 |} ]>
                   (p_timers s);
     p_next_timer := S (p_next_timer s);
     p_pollInterval := Some (p_next_timer s);
     p_disabled := p_disabled s;
     p_jobId := read_prop jobData "job_id" |}.

(** The start button enabled again, the poll loop otherwise as it was. *)
Definition enabled (s : Polling) : Polling :=
  {| p_timers := p_timers s;
     p_next_timer := p_next_timer s;
     p_pollInterval := p_pollInterval s;
     p_disabled := false;
     p_jobId := p_jobId s |}.

(** Every timer of the page runs [checkJobStatus] every 5000 ms. *)
Definition five_seconds (p : Page) : Prop :=
  forall (handle : nat) (t : Timer),
    timers p !! handle = Some t -> t = {| callback := CheckJobStatus; delay := 5000 |}.

(** No timer of [p] is missing in [p']. *)
Definition keeps_timers (p p' : Page) : Prop :=
  forall (handle : nat) (t : Timer),
    timers p !! handle = Some t -> timers p' !! handle = Some t.

(** The error a failed status check ends in. *)
Definition check_error (o : FetchOutcome) : option JsVal :=
  match o with
  | FetchRejected name message => Some (JError name message)
  | FetchResolved response =>
      if ok response then None
      else Some (JError "Error"
                   ("Error checking job: " +:+ pretty (status response) +:+ " " +:+
                    statusText response))
  end.

(** The error a failed start ends in: the fetch rejected, the response not
    ok, the body no JSON, or the body [null]. *)
Definition start_error (o : FetchOutcome) : option JsVal :=
  match o with
  | FetchRejected name message => Some (JError name message)
  | FetchResolved response =>
      if ok response then
        match json response with
        | JsonRejected name message => Some (JError name message)
        | JsonParsed jobData =>
            if is_nullish jobData then Some (read_error jobData "job_id") else None
        end
      else Some (JError "Error"
                   ("Error starting job: " +:+ pretty (status response) +:+ " " +:+
                    statusText response))
  end.

(** A value [toFixed] can be asked of through [?.]: a number, or nothing. *)
Definition number_or_nullish (v : JsVal) : bool :=
  match v with
  | JUndefined | JNull | JNumber _ => true
  | _ => false
  end.

(** The handles of a page are in order: every timer was handed out before
    [next_timer]; the handle the script keeps is the last one handed out;
    and while it keeps none there is no timer. *)
Definition handles_in_order (p : Page) : Prop :=
  (forall (handle : nat) (t : Timer), timers p !! handle = Some t -> handle < next_timer p) /\
  match pollInterval p with
  | Some handle => next_timer p = S handle
  | None => timers p = ∅
  end.

(** The status line of a response can be written: its [progress], when it
    has one, its [status] and its [message] (or the empty string in its
    place) have strings. *)
Definition status_prints (jobData : JsVal) : bool :=
  (if is_defined (read_prop jobData "progress")
   then prints (read_prop jobData "progress") else true) &&
  prints (read_prop jobData "status") &&
  prints (js_or (read_prop jobData "message") (JString "")).

(** The start button enabled and the job id replaced by that of [jobData],
    the poll loop otherwise as it was: a start that failed after the job id
    was stored. *)
Definition id_kept (jobData : JsVal) (s : Polling) : Polling :=
  {| p_timers := p_timers s;
     p_next_timer := p_next_timer s;
     p_pollInterval := p_pollInterval s;
     p_disabled := false;
     p_jobId := read_prop jobData "job_id" |}.

(** The body of a start that succeeds: the parsed body of an ok response
    that is not [null] and whose [job_id] has a string. *)
Definition start_body (o : FetchOutcome) : option JsVal :=
  match ok_body o with
  | Some jobData =>
      if negb (is_nullish jobData) && prints (read_prop jobData "job_id")
      then Some jobData else None
  | None => None
  end.

(** The rows of the result box can be written: the three counts of the
    result, or 0 in their place, have strings. *)
Definition counts_print (jobData : JsVal) : bool :=
  let result := js_or (read_prop jobData "result") (JObject ∅) in
  prints (js_or (read_prop result "total_tests") (JNumber 0%float)) &&
  prints (js_or (read_prop result "passed") (JNumber 0%float)) &&
  prints (js_or (read_prop result "failed") (JNumber 0%float)).

End WithEngine.

End PageSpec.

(** ** Sample engine, worlds and pages *)

Module Samples.
Import Client.

Definition print_number (x : float) : string :=
  if PrimFloat.eqb x 0.7%float then "0.7"
  else if PrimFloat.eqb x 30%float then "30"
  else if PrimFloat.eqb x 100%float then "100"
  else "0".

(** An engine that prints the few numbers the examples use; their strings
    are ASCII, one code unit to the character. *)
Definition engine : JsEngine :=
  {| number_to_string := print_number;
     number_to_string_radix := fun _ _ => "0.k3j9x2m1q8w5";
     number_toFixed := fun x _ => print_number x +:+ ".00";
     parseFloat := fun _ => 0.7%float;
     cannot_read_message := fun _ key => "Cannot read properties (reading " +:+ key +:+ ")";
     not_a_function_message := fun f => f +:+ " is not a function";
     cannot_convert_message := fun _ => "Cannot convert object to primitive value";
     code_units :=
       fun s => map (fun c => String c EmptyString) (String.list_ascii_of_string s) |}.

Definition network_error : JsVal := JError "AxiosError" "Network Error".

(** A backend that is down. *)
Definition down : World :=
  {| REACT_APP_API_URL := JUndefined;
     backend := fun _ _ => Rejected network_error;
     Math_random := fun _ => 0.5%float |}.

Definition answer : AxiosResponse :=
  {| data := JObject (<[ "response" := JString "hello" ]>
                        (<[ "session_id" := JString "from-backend" ]> ∅));
     status := 200 |}.

(** A backend that answers every request alike. *)
Definition up : World :=
  {| REACT_APP_API_URL := JString "https://bot.example";
     backend := fun _ _ => Resolved answer;
     Math_random := fun _ => 0.5%float |}.

Definition job_started : JobPage.FetchOutcome :=
  JobPage.FetchResolved
    {| JobPage.ok := true; JobPage.status := 200; JobPage.statusText := "OK";
       JobPage.json := JobPage.JsonParsed (JObject (<[ "job_id" := JString "job-1" ]> ∅)) |}.

Definition completed : JsVal :=
  JObject (<[ "status" := JString "completed" ]>
             (<[ "progress" := JNumber 100%float ]> ∅)).

Definition job_completed : JobPage.FetchOutcome :=
  JobPage.FetchResolved
    {| JobPage.ok := true; JobPage.status := 200; JobPage.statusText := "OK";
       JobPage.json := JobPage.JsonParsed completed |}.

Definition unavailable : JobPage.FetchOutcome :=
  JobPage.FetchResolved
    {| JobPage.ok := false; JobPage.status := 503;
       JobPage.statusText := "Service Unavailable";
       JobPage.json := JobPage.JsonRejected "SyntaxError" "Unexpected token" |}.

(** The page after a file was picked, the button clicked and the job
    started. *)
Definition clicked : JobPage.Page :=
  fst (@JobPage.startButton_click engine ["tests.csv"] "0.7" JobPage.initial).

Definition polling_page : JobPage.Page :=
  fst (@JobPage.startButton_click_resume engine job_started clicked).

Definition job_without_id : JobPage.FetchOutcome :=
  JobPage.FetchResolved
    {| JobPage.ok := true; JobPage.status := 200; JobPage.statusText := "OK";
       JobPage.json := JobPage.JsonParsed (JObject (<[ "queued" := JBool true ]> ∅)) |}.

Definition failed : JsVal :=
  JObject (<[ "status" := JString "failed" ]>
             (<[ "error" := JObject (<[ "message" := JString "backend crashed" ]> ∅) ]> ∅)).

Definition job_failed : JobPage.FetchOutcome :=
  JobPage.FetchResolved
    {| JobPage.ok := true; JobPage.status := 200; JobPage.statusText := "OK";
       JobPage.json := JobPage.JsonParsed failed |}.

Definition running : JsVal :=
  JObject (<[ "status" := JString "running" ]>
             (<[ "progress" := JNumber 30%float ]>
                (<[ "message" := JString "3 of 10" ]> ∅))).

Definition job_running : JobPage.FetchOutcome :=
  JobPage.FetchResolved
    {| JobPage.ok := true; JobPage.status := 200; JobPage.statusText := "OK";
       JobPage.json := JobPage.JsonParsed running |}.

Definition completed_badly : JsVal :=
  JObject (<[ "status" := JString "completed" ]>
             (<[ "result" := JObject (<[ "pass_rate" := JString "high" ]> ∅) ]> ∅)).

Definition job_completed_badly : JobPage.FetchOutcome :=
  JobPage.FetchResolved
    {| JobPage.ok := true; JobPage.status := 200; JobPage.statusText := "OK";
       JobPage.json := JobPage.JsonParsed completed_badly |}.

(** A run in which status checks take longer than the interval.  Two checks
    of the first job are under way when the first of them reports
    [completed]; the user starts a second job; the other check settles and
    enables the button while that start is pending; the user clicks once
    more; both starts succeed. *)
Definition first_done : JobPage.Page :=
  fst (@JobPage.checkJobStatus_resume engine job_completed polling_page).

Definition second_click : JobPage.Page :=
  fst (@JobPage.startButton_click engine ["tests.csv"] "0.7" first_done).

Definition late_check : JobPage.Page :=
  fst (@JobPage.checkJobStatus_resume engine job_completed second_click).

Definition third_click : JobPage.Page :=
  fst (@JobPage.startButton_click engine ["tests.csv"] "0.7" late_check).

Definition second_started : JobPage.Page :=
  fst (@JobPage.startButton_click_resume engine job_started third_click).

Definition third_started : JobPage.Page :=
  fst (@JobPage.startButton_click_resume engine job_started second_started).

(** A JSON object with a [toString] of its own, which is no function. *)
Definition unprintable : JsVal := JObject (<[ "toString" := JNumber 0%float ]> ∅).

Definition completed_unprintable : JsVal :=
  JObject (<[ "status" := JString "completed" ]> (<[ "message" := unprintable ]> ∅)).

Definition job_completed_unprintable : JobPage.FetchOutcome :=
  JobPage.FetchResolved
    {| JobPage.ok := true; JobPage.status := 200; JobPage.statusText := "OK";
       JobPage.json := JobPage.JsonParsed completed_unprintable |}.

Definition job_started_unprintable : JobPage.FetchOutcome :=
  JobPage.FetchResolved
    {| JobPage.ok := true; JobPage.status := 200; JobPage.statusText := "OK";
       JobPage.json := JobPage.JsonParsed (JObject (<[ "job_id" := unprintable ]> ∅)) |}.

End Samples.

(** ** Facts about the API client *)

Section ClientFacts.
Import Client Spec.
Context `{JsEngine} (W : World).

Lemma truthy_not_nullish (v : JsVal) : truthy v = true -> is_nullish v = false.
Proof. destruct v; simpl; congruence. Qed.

Lemma truthy_default_null (v : JsVal) : truthy (default_param v JNull) = truthy v.
Proof. destruct v; reflexivity. Qed.

Lemma default_null_truthy (v : JsVal) : truthy v = true -> default_param v JNull = v.
Proof. destruct v; simpl; congruence. Qed.

Lemma falsy_prints (v : JsVal) : truthy v = false -> prints v = true.
Proof. destruct v as [| |[|]| | | | | |]; try reflexivity; simpl; discriminate. Qed.

Lemma prints_ToString (v : JsVal) : prints v = true -> ToString v = Some (to_string v).
Proof.
  unfold prints, to_string. destruct (ToString v); [reflexivity|discriminate].
Qed.

Lemma prints_false_ToString (v : JsVal) : prints v = false -> ToString v = None.
Proof. unfold prints. destruct (ToString v); [discriminate|reflexivity]. Qed.

Lemma prints_default_param (v d : JsVal) :
  prints d = true -> prints (default_param v d) = prints v.
Proof. destruct v; simpl; try reflexivity. intros ->. reflexivity. Qed.

Lemma call_str_returns (v : JsVal) (h : list Event) :
  prints v = true -> str v h = ([], Returned (to_string v)).
Proof. intros Hv. unfold str. now rewrite (prints_ToString v Hv). Qed.

Lemma call_str_throws (v : JsVal) (h : list Event) :
  prints v = false -> str v h = ([], Thrown (convert_error v)).
Proof. intros Hv. unfold str. now rewrite (prints_false_ToString v Hv). Qed.

Lemma call_step_silent {A B} (m : M A) (k : A -> M B) (handler : JsVal -> M B)
    (h : list Event) (a : A) :
  m h = ([], Returned a) ->
  try_catch (bind m k) handler h = try_catch (k a) handler h.
Proof.
  intros Hm. unfold try_catch, bind. rewrite Hm, (app_nil_r h).
  destruct (k a h) as [ev [b|e]]; reflexivity.
Qed.

Lemma call_step_throw {A B} (m : M A) (k : A -> M B) (handler : JsVal -> M B)
    (h : list Event) (e : JsVal) :
  m h = ([], Thrown e) ->
  try_catch (bind m k) handler h = handler e h.
Proof.
  intros Hm. unfold try_catch, bind. rewrite Hm, (app_nil_r h).
  destruct (handler e h) as [ev r]; reflexivity.
Qed.

Lemma call_step_log {B} (args : list JsVal) (k : unit -> M B) (handler : JsVal -> M B)
    (h : list Event) :
  try_catch (bind (console_log args) k) handler h
  = prepend [Log LLog args] (try_catch (k tt) handler (h ++ [Log LLog args])).
Proof.
  unfold try_catch, bind, console_log, emit, prepend.
  destruct (k tt (h ++ [Log LLog args])) as [ev [b|e]]; [reflexivity|].
  simpl. rewrite <- app_assoc. simpl.
  destruct (handler e (h ++ Log LLog args :: ev)) as [ev' r]; reflexivity.
Qed.

Lemma call_assoc {A B C} (m : M A) (k1 : A -> M B) (k2 : B -> M C)
    (handler : JsVal -> M C) (h : list Event) :
  try_catch (bind (bind m k1) k2) handler h
  = try_catch (bind m (fun a => bind (k1 a) k2)) handler h.
Proof.
  unfold try_catch, bind. destruct (m h) as [ev [a|e]]; [|reflexivity].
  destruct (k1 a (h ++ ev)) as [ev1 [b|e]]; [|reflexivity].
  rewrite <- !app_assoc.
  destruct (k2 b (h ++ ev ++ ev1)) as [ev2 [c|e]]; simpl; rewrite <- ?app_assoc;
    [reflexivity|].
  destruct (handler e (h ++ ev ++ ev1 ++ ev2)); reflexivity.
Qed.

(** The catch block of every facade method. *)
Lemma rethrow (msg : string) (e : JsVal) (h : list Event) :
  (console_error [JString msg; e] ;; @throw JsVal e) h
  = ([Log LError [JString msg; e]], Thrown e).
Proof. reflexivity. Qed.

Lemma facade_body_value (m : Method) (u : string) (b : Body) (cfg : RequestConfig)
    (msg : string) (value : AxiosResponse -> JsVal) (h : list Event) :
  try_catch
    (response <- request W (api W) m u b cfg ;; ret (value response))
    (fun error => console_error [JString msg; error] ;; throw error) h
  = one_request W [] {| client := api W; method := m; url := u; body := b; config := cfg |}
      msg value h.
Proof.
  unfold one_request, try_catch, bind, request, ret, throw, console_error, emit.
  rewrite (app_nil_r h). simpl.
  destruct (backend W h _); reflexivity.
Qed.

Lemma facade_body (m : Method) (u : string) (b : Body) (cfg : RequestConfig)
    (msg : string) (h : list Event) :
  try_catch
    (response <- request W (api W) m u b cfg ;; ret (data response))
    (fun error => console_error [JString msg; error] ;; throw error) h
  = one_request W [] {| client := api W; method := m; url := u; body := b; config := cfg |}
      msg data h.
Proof. apply facade_body_value. Qed.

Lemma prepend_one_request (pre ev : list Event) (req : Request) (msg : string)
    (value : AxiosResponse -> JsVal) (h : list Event) :
  prepend ev (one_request W pre req msg value (h ++ ev))
  = one_request W (ev ++ pre) req msg value h.
Proof.
  unfold prepend, one_request. rewrite <- app_assoc.
  destruct (backend W (h ++ ev ++ pre) req); simpl; rewrite <- app_assoc; reflexivity.
Qed.

Lemma mode_for_default (responseMode : JsVal) :
  (if strict_eq_str (default_param responseMode (JString "rag")) "standard" then "no_rag"
   else if strict_eq_str (default_param responseMode (JString "rag")) "compare"
        then "compare" else "rag")
  = mode_for responseMode.
Proof. destruct responseMode; reflexivity. Qed.

Lemma payload_order (a b c d : JsVal) :
  <[ "prompt_style" := d ]>
    (<[ "mode" := c ]> (<[ "session_id" := b ]> (<[ "message" := a ]> (∅ : gmap string JsVal))))
  = <[ "message" := a ]>
      (<[ "session_id" := b ]> (<[ "mode" := c ]> (<[ "prompt_style" := d ]> ∅))).
Proof.
  apply map_eq; intros k.
  rewrite !lookup_insert.
  repeat case_decide; subst; try reflexivity; try discriminate.
Qed.

Lemma session_step (sessionId : JsVal) (h : list Event) :
  (if truthy (default_param sessionId JNull) then ret (default_param sessionId JNull)
   else
     r <- random W ;;
     ret (JString ("session_" +:+ String.substring 2 13 (number_to_string_radix r 36)))) h
  = ([], Returned (session_id_of W sessionId h)).
Proof.
  rewrite truthy_default_null. unfold session_id_of.
  destruct (truthy sessionId) eqn:Hs; [now rewrite (default_null_truthy _ Hs)|].
  reflexivity.
Qed.

Lemma prints_session_id (sessionId : JsVal) (h : list Event) :
  prints (session_id_of W sessionId h) = prints sessionId.
Proof.
  unfold session_id_of. destruct (truthy sessionId) eqn:Hs; [reflexivity|].
  now rewrite (falsy_prints _ Hs).
Qed.

Lemma call_get_prop_returns (v : JsVal) (key : string) (h : list Event) :
  is_nullish v = false -> get_prop v key h = ([], Returned (read_prop v key)).
Proof. intros Hv. unfold get_prop. now rewrite Hv. Qed.

Ltac silent :=
  erewrite call_step_silent by
    first [ apply session_step
          | apply call_str_returns; assumption
          | apply call_get_prop_returns; assumption
          | reflexivity ].

Ltac thrown :=
  erewrite call_step_throw by first [ apply call_str_throws; assumption | reflexivity ].

Lemma sendMessage_run (message responseMode sessionId systemPrompt promptStyle : JsVal)
    (h : list Event) :
  chat_prints responseMode sessionId systemPrompt promptStyle = true ->
  sendMessage W message responseMode sessionId systemPrompt promptStyle h
  = one_request W (chat_logs W responseMode sessionId systemPrompt promptStyle h)
      {| client := api W; method := POST; url := "/chat";
         body := JsonBody (JObject (chat_payload W message responseMode sessionId
                                      systemPrompt promptStyle h));
         config := no_config |}
      "Error sending message:"
      (fun r => JObject (<[ "session_id" := session_id_of W sessionId h ]> (spread (data r))))
      h.
Proof.
  unfold chat_prints. rewrite !andb_true_iff. intros [[[Hid Hmode] Hstyle] Hlen].
  rewrite <- (prints_session_id sessionId h) in Hid.
  rewrite <- (prints_default_param responseMode (JString "rag")) in Hmode by reflexivity.
  rewrite <- (prints_default_param promptStyle (JString "default")) in Hstyle by reflexivity.
  unfold sendMessage. cbv zeta. rewrite mode_for_default.
  unfold chat_logs, chat_payload. cbv zeta. rewrite <- !payload_order.
  silent. silent. silent. silent. rewrite call_step_log, truthy_default_null.
  destruct (truthy systemPrompt) eqn:Hp.
  - rewrite (default_null_truthy _ Hp).
    pose proof (truthy_not_nullish _ Hp) as Hn.
    rewrite call_assoc. silent. rewrite call_assoc. silent. rewrite call_step_log.
    unfold axios_post. rewrite facade_body_value, !prepend_one_request. reflexivity.
  - silent. unfold axios_post. rewrite facade_body_value, !prepend_one_request. reflexivity.
Qed.

Lemma sendMessage_stops (message responseMode sessionId systemPrompt promptStyle : JsVal)
    (h : list Event) :
  chat_prints responseMode sessionId systemPrompt promptStyle = false ->
  exists pre e,
    http_requests pre = [] /\ error_logs pre = [] /\
    sendMessage W message responseMode sessionId systemPrompt promptStyle h
    = (pre ++ [Log LError [JString "Error sending message:"; e]], Thrown e).
Proof.
  unfold chat_prints. intros Hfail.
  unfold sendMessage. cbv zeta.
  silent.
  destruct (prints (session_id_of W sessionId h)) eqn:Hid;
    [|thrown; exists [], (convert_error (session_id_of W sessionId h)); auto].
  silent.
  destruct (prints (default_param responseMode (JString "rag"))) eqn:Hmode;
    [|thrown; exists [], (convert_error (default_param responseMode (JString "rag"))); auto].
  silent.
  destruct (prints (default_param promptStyle (JString "default"))) eqn:Hstyle;
    [|thrown; exists [], (convert_error (default_param promptStyle (JString "default")));
      auto].
  silent. rewrite call_step_log, truthy_default_null.
  rewrite prints_session_id in Hid.
  rewrite prints_default_param in Hmode, Hstyle by reflexivity.
  rewrite Hid, Hmode, Hstyle in Hfail. simpl in Hfail.
  destruct (truthy systemPrompt) eqn:Hp; [|discriminate].
  rewrite (default_null_truthy _ Hp).
  pose proof (truthy_not_nullish _ Hp) as Hn.
  rewrite call_assoc. silent. rewrite call_assoc. thrown.
  match goal with |- context [prepend ?ev _] => exists ev end.
  exists (convert_error (read_prop systemPrompt "length")).
  split; [reflexivity|]. split; reflexivity.
Qed.

Ltac settle_backend :=
  unfold one_request, try_catch, bind, ret, throw, console_error, console_log, emit,
    get_prop, js_and, axios_post, axios_get, axios_delete, request, random;
  simpl; rewrite ?app_nil_r; simpl;
  match goal with |- context [backend W ?a ?b] => destruct (backend W a b) end;
  reflexivity.

Lemma runTests_run (testData : JsVal) (h : list Event) :
  runTests W testData h
  = one_request W []
      {| client := api W; method := POST;
         url := fst (fst (dispatch testData));
         body := snd (fst (dispatch testData));
         config := snd (dispatch testData) |}
      "Error running chat tests:" data h.
Proof.
  unfold runTests.
  destruct testData as [| |b|x|s|items|props|name message|filename]; simpl default_param;
    cbv zeta.
  - settle_backend.
  - settle_backend.
  - destruct b; settle_backend.
  - unfold js_and. destruct (truthy (JNumber x)) eqn:Hx; [settle_backend|].
    unfold try_catch, bind, ret. cbv beta iota. rewrite Hx. settle_backend.
  - simpl typeof. simpl string_includes. unfold dispatch.
    destruct (includes s ".csv") eqn:Hi; destruct (truthy (JString s)) eqn:Hs;
      unfold js_and; rewrite Hs; try settle_backend;
      unfold try_catch, bind, ret; cbv beta iota; rewrite Hs; settle_backend.
  - settle_backend.
  - unfold js_and, get_prop. simpl.
    unfold try_catch, bind, ret. simpl.
    destruct (truthy (default JUndefined (props !! "prompt"))) eqn:Hp; settle_backend.
  - settle_backend.
  - settle_backend.
Qed.

Lemma form_append_returns (entries : list (string * JsVal)) (name : string)
    (v entry : JsVal) (h : list Event) :
  form_entry v = Some entry ->
  form_append entries name v h = ([], Returned (entries ++ [(name, entry)])).
Proof. intros Hv. unfold form_append. now rewrite Hv. Qed.

Lemma form_append_throws (entries : list (string * JsVal)) (name : string)
    (v : JsVal) (h : list Event) :
  form_entry v = None ->
  form_append entries name v h = ([], Thrown (convert_error v)).
Proof. intros Hv. unfold form_append. now rewrite Hv. Qed.

Lemma startBatchTest_run (file similarityThreshold entry : JsVal) (h : list Event) :
  form_entry file = Some entry ->
  prints similarityThreshold = true ->
  startBatchTest W file similarityThreshold h
  = one_request W []
      {| client := api W; method := POST;
         url := "/test/batch/start?similarity_threshold=" +:+
                to_string (default_param similarityThreshold (JNumber 0.7%float));
         body := FormBody [("csv_file", entry)];
         config := {| params := ∅;
                      headers := <[ "Content-Type" := "multipart/form-data" ]> ∅ |} |}
      "Error starting batch test:" data h.
Proof.
  intros Hfile Hprints.
  rewrite <- (prints_default_param similarityThreshold (JNumber 0.7%float)) in Hprints
    by reflexivity.
  unfold startBatchTest. cbv zeta.
  erewrite call_step_silent by (apply form_append_returns; exact Hfile).
  silent. unfold axios_post. apply facade_body.
Qed.

Lemma startBatchTest_stops (file similarityThreshold : JsVal) (h : list Event) :
  call_prints (StartBatchTest file similarityThreshold) = false ->
  exists e,
    startBatchTest W file similarityThreshold h
    = ([Log LError [JString "Error starting batch test:"; e]], Thrown e).
Proof.
  simpl. intros Hfail. unfold startBatchTest. cbv zeta.
  destruct (form_entry file) as [entry|] eqn:Hfile.
  - simpl in Hfail.
    rewrite <- (prints_default_param similarityThreshold (JNumber 0.7%float)) in Hfail
      by reflexivity.
    erewrite call_step_silent by (apply form_append_returns; exact Hfile).
    thrown. eauto.
  - erewrite call_step_throw by (apply form_append_throws; exact Hfile). eauto.
Qed.

Lemma getTestJobStatus_run (jobId : JsVal) (h : list Event) :
  prints jobId = true ->
  getTestJobStatus W jobId h
  = one_request W []
      {| client := api W; method := GET; url := "/test/jobs/" +:+ to_string jobId;
         body := NoBody; config := no_config |}
      "Error getting test job status:" data h.
Proof. intros Hp. unfold getTestJobStatus. silent. apply facade_body. Qed.

Lemma deleteDocument_run (documentId : JsVal) (h : list Event) :
  prints documentId = true ->
  deleteDocument W documentId h
  = one_request W []
      {| client := api W; method := DELETE;
         url := "/index/document/" +:+ to_string documentId;
         body := NoBody; config := no_config |}
      "Error deleting document:" data h.
Proof. intros Hp. unfold deleteDocument. silent. apply facade_body. Qed.

Lemma chat_logs_no_request (responseMode sessionId systemPrompt promptStyle : JsVal)
    (h : list Event) :
  http_requests (chat_logs W responseMode sessionId systemPrompt promptStyle h) = [].
Proof. unfold chat_logs. destruct (truthy systemPrompt); reflexivity. Qed.

Lemma chat_logs_no_error (responseMode sessionId systemPrompt promptStyle : JsVal)
    (h : list Event) :
  error_logs (chat_logs W responseMode sessionId systemPrompt promptStyle h) = [].
Proof. unfold chat_logs. destruct (truthy systemPrompt); reflexivity. Qed.

Lemma dispatch_enumerated (inst : AxiosInstance) (testData : JsVal) :
  enumerated {| client := inst; method := POST;
                url := fst (fst (dispatch testData));
                body := snd (fst (dispatch testData));
                config := snd (dispatch testData) |} = true.
Proof.
  destruct testData as [| |b|x|s|items|props|name message|filename]; simpl;
    try reflexivity.
  - destruct (includes s ".csv"); reflexivity.
  - destruct (truthy (default JUndefined (props !! "prompt"))); reflexivity.
Qed.

(** Every call prints some lines and then either issues one request through
    [api] to an enumerated endpoint and ends as the backend's answer
    decides, or, when an argument it has to print has no string, ends in
    its catch block without a request. *)
Lemma invoke_run (c : Call) (h : list Event) :
  exists (pre : list Event) (msg : string),
    http_requests pre = [] /\
    error_logs pre = [] /\
    if call_prints c
    then exists req sid,
           client req = api W /\
           enumerated req = true /\
           invoke W c h = one_request W pre req msg (returned_value c sid) h
    else exists e, invoke W c h = (pre ++ [Log LError [JString msg; e]], Thrown e).
Proof.
  destruct c; simpl invoke;
    try (eexists [], _; split; [reflexivity|]; split; [reflexivity|];
         simpl call_prints; cbv iota;
         eexists _, JNull; split; [|split; [|apply facade_body]]; reflexivity).
  - destruct (call_prints (SendMessage message responseMode sessionId systemPrompt
                             promptStyle)) eqn:Hp; simpl in Hp.
    + eexists _, _. split; [apply chat_logs_no_request|].
      split; [apply chat_logs_no_error|].
      eexists _, _. split; [|split; [|apply (sendMessage_run _ _ _ _ _ _ Hp)]]; reflexivity.
    + destruct (sendMessage_stops message responseMode sessionId systemPrompt promptStyle
                  h Hp) as (pre & e & Hreq & Herr & Hrun).
      exists pre, "Error sending message:". eauto.
  - eexists [], _. split; [reflexivity|]. split; [reflexivity|].
    simpl call_prints. cbv iota.
    eexists _, JNull. split; [|split; [|apply runTests_run]];
      [reflexivity|apply dispatch_enumerated].
  - exists [], "Error starting batch test:". split; [reflexivity|]. split; [reflexivity|].
    destruct (call_prints (StartBatchTest file similarityThreshold)) eqn:Hp.
    + simpl in Hp. apply andb_true_iff in Hp as [Hfile Hthreshold].
      destruct (form_entry file) as [entry|] eqn:He; [|discriminate].
      eexists _, JNull.
      split; [|split; [|apply (startBatchTest_run _ _ entry h He Hthreshold)]]; reflexivity.
    + apply (startBatchTest_stops _ _ h Hp).
  - exists [], "Error getting test job status:".
    split; [reflexivity|]. split; [reflexivity|].
    simpl call_prints. destruct (prints jobId) eqn:Hp.
    + eexists _, JNull. split; [|split; [|apply (getTestJobStatus_run _ h Hp)]]; reflexivity.
    + exists (convert_error jobId). unfold getTestJobStatus. thrown. reflexivity.
  - exists [], "Error deleting document:".
    split; [reflexivity|]. split; [reflexivity|].
    simpl call_prints. destruct (prints documentId) eqn:Hp.
    + eexists _, JNull. split; [|split; [|apply (deleteDocument_run _ h Hp)]]; reflexivity.
    + exists (convert_error documentId). unfold deleteDocument. thrown. reflexivity.
Qed.

Lemma http_requests_app (a b : list Event) :
  http_requests (a ++ b) = http_requests a ++ http_requests b.
Proof.
  induction a as [|[level args|req] a IH]; simpl; [reflexivity|exact IH|].
  now rewrite IH.
Qed.

Lemma error_logs_app (a b : list Event) :
  error_logs (a ++ b) = error_logs a ++ error_logs b.
Proof.
  induction a as [|[[|] args|req] a IH]; simpl; try exact IH; [reflexivity|].
  now rewrite IH.
Qed.

Lemma one_request_requests (pre : list Event) (req : Request) (msg : string)
    (value : AxiosResponse -> JsVal) (h : list Event) :
  http_requests pre = [] ->
  http_requests (events (one_request W pre req msg value h)) = [req].
Proof.
  intros Hpre. unfold one_request.
  destruct (backend W (h ++ pre) req); simpl;
    rewrite http_requests_app, Hpre; reflexivity.
Qed.

Lemma one_request_events (pre : list Event) (req : Request) (msg : string)
    (value : AxiosResponse -> JsVal) (h : list Event) :
  exists post, events (one_request W pre req msg value h) = pre ++ Http req :: post.
Proof.
  unfold one_request. destruct (backend W (h ++ pre) req); simpl; eauto.
Qed.

(** The first request of a run splits its events in one way only. *)
Lemma first_request_unique (pre pre' post post' : list Event) (req req' : Request) :
  http_requests pre = [] ->
  http_requests pre' = [] ->
  pre ++ Http req :: post = pre' ++ Http req' :: post' ->
  pre = pre' /\ req = req' /\ post = post'.
Proof.
  revert pre'. induction pre as [|e pre IH]; intros [|e' pre'] Hp Hp' Heq; simpl in *.
  - injection Heq as -> ->. auto.
  - injection Heq as <- _. discriminate.
  - injection Heq as -> _. discriminate.
  - injection Heq as -> Heq.
    destruct e' as [level args|r]; [|discriminate].
    destruct (IH pre' Hp Hp' Heq) as (-> & -> & ->). auto.
Qed.

(** A run that ended in the catch block before any request holds none. *)
Lemma stopped_has_no_request (pre pre' post : list Event) (req : Request)
    (line : list JsVal) :
  http_requests pre = [] ->
  pre ++ [Log LError line] <> pre' ++ Http req :: post.
Proof.
  intros Hpre Heq. apply (f_equal http_requests) in Heq.
  rewrite !http_requests_app, Hpre in Heq. simpl in Heq.
  destruct (http_requests pre'); discriminate.
Qed.

(** C2.  Every facade method whose arguments can be printed issues a
    request through [api]; and whenever the HTTP call of a facade method
    throws [e] (the backend rejects the first request the method issues),
    the method prints the error with [console.error] and throws the same
    [e]: nothing follows the request but that one line, so there is no
    second request, and the method returns no value. *)
Theorem facade_rethrows (c : Call) (h : list Event) :
  (call_prints c = true ->
   exists pre req post,
     events (invoke W c h) = pre ++ Http req :: post /\
     http_requests pre = [] /\
     client req = api W) /\
  (forall pre req post e,
     events (invoke W c h) = pre ++ Http req :: post ->
     http_requests pre = [] ->
     backend W (h ++ pre) req = Rejected e ->
     result (invoke W c h) = Thrown e /\
     exists msg, post = [Log LError [JString msg; e]]).
Proof.
  destruct (invoke_run c h) as (pre0 & msg & Hpre0 & _ & Hrun).
  destruct (call_prints c).
  - destruct Hrun as (req0 & sid & Hclient & _ & Hrun). split.
    + intros _. rewrite Hrun.
      destruct (one_request_events pre0 req0 msg (returned_value c sid) h) as [post Hev].
      eauto 6.
    + intros pre req post e Hev Hpre Hrej.
      rewrite Hrun in *. unfold one_request in *.
      destruct (backend W (h ++ pre0) req0) as [r|e0] eqn:Hb; simpl in Hev;
        apply first_request_unique in Hev as (-> & -> & <-); try assumption;
        rewrite Hb in Hrej; [discriminate|].
      injection Hrej as ->. simpl. eauto.
  - destruct Hrun as (e0 & Hrun). split; [discriminate|].
    intros pre req post e Hev. rewrite Hrun in Hev. simpl in Hev.
    now apply stopped_has_no_request in Hev.
Qed.

(** C7.  Every facade method whose arguments can be printed issues a
    request through [api]; and whenever the HTTP call of a facade method
    resolves with a response, the method returns at once: the response data
    itself for every method but [sendMessage], and for [sendMessage] an
    object with the properties of the response data and a [session_id].
    Nothing is returned in any other way: a method that returns has issued
    its request and got a response. *)
Theorem facade_returns (c : Call) (h : list Event) :
  (call_prints c = true ->
   exists pre req post,
     events (invoke W c h) = pre ++ Http req :: post /\
     http_requests pre = [] /\
     client req = api W) /\
  (forall pre req post r,
     events (invoke W c h) = pre ++ Http req :: post ->
     http_requests pre = [] ->
     backend W (h ++ pre) req = Resolved r ->
     post = [] /\
     if is_sendMessage c
     then exists sid,
            result (invoke W c h)
            = Returned (JObject (<[ "session_id" := sid ]> (spread (data r))))
     else result (invoke W c h) = Returned (data r)) /\
  (forall v,
     result (invoke W c h) = Returned v ->
     exists pre req r,
       events (invoke W c h) = pre ++ [Http req] /\
       http_requests pre = [] /\
       backend W (h ++ pre) req = Resolved r).
Proof.
  destruct (invoke_run c h) as (pre0 & msg & Hpre0 & _ & Hrun).
  destruct (call_prints c).
  - destruct Hrun as (req0 & sid & Hclient & _ & Hrun). split; [|split].
    + intros _. rewrite Hrun.
      destruct (one_request_events pre0 req0 msg (returned_value c sid) h) as [post Hev].
      eauto 6.
    + intros pre req post r Hev Hpre Hres.
      rewrite Hrun in *. unfold one_request in *.
      destruct (backend W (h ++ pre0) req0) as [r0|e0] eqn:Hb; simpl in Hev;
        apply first_request_unique in Hev as (-> & -> & <-); try assumption;
        rewrite Hb in Hres; [|discriminate].
      injection Hres as ->. split; [reflexivity|].
      unfold returned_value. simpl. destruct (is_sendMessage c); eauto.
    + intros v. rewrite Hrun. unfold one_request.
      destruct (backend W (h ++ pre0) req0) as [r0|e0] eqn:Hb; simpl; [|discriminate].
      intros _. eauto 6.
  - destruct Hrun as (e0 & Hrun). split; [discriminate|]. split.
    + intros pre req post r Hev. rewrite Hrun in Hev. simpl in Hev.
      now apply stopped_has_no_request in Hev.
    + intros v. rewrite Hrun. discriminate.
Qed.

(** C6.  Every request a facade method issues goes through the one
    instance [api], whose base URL is the environment's
    [REACT_APP_API_URL] or else [http://localhost:8005] and whose default
    [Content-Type] is [application/json], and targets one of the enumerated
    endpoints.  A call issues exactly one request when its arguments can be
    printed, and none otherwise. *)
Theorem requests_enumerated (c : Call) (h : list Event) :
  Forall (fun req => client req = api W /\ enumerated req = true)
    (http_requests (events (invoke W c h))) /\
  length (http_requests (events (invoke W c h))) = (if call_prints c then 1 else 0) /\
  baseURL (api W) = js_or (REACT_APP_API_URL W) (JString "http://localhost:8005") /\
  default_headers (api W) = {[ "Content-Type" := "application/json" ]}.
Proof.
  cut (Forall (fun req => client req = api W /\ enumerated req = true)
         (http_requests (events (invoke W c h))) /\
       length (http_requests (events (invoke W c h))) = (if call_prints c then 1 else 0)).
  { intros [Hall Hlen]. repeat split; assumption. }
  destruct (invoke_run c h) as (pre & msg & Hpre & _ & Hrun).
  destruct (call_prints c).
  - destruct Hrun as (req & sid & Hc & He & Hrun).
    rewrite Hrun, one_request_requests by exact Hpre.
    split; [|reflexivity]. repeat constructor; assumption.
  - destruct Hrun as (e & Hrun). rewrite Hrun. simpl.
    rewrite http_requests_app, Hpre. simpl. split; [constructor|reflexivity].
Qed.

Lemma chat_payload_dom (message responseMode sessionId systemPrompt promptStyle : JsVal)
    (h : list Event) :
  dom (chat_payload W message responseMode sessionId systemPrompt promptStyle h)
  = ({[ "message"; "session_id"; "mode"; "prompt_style" ]} : gset string)
    ∪ (if truthy systemPrompt then {[ "system_prompt" ]} else ∅).
Proof.
  unfold chat_payload. cbv zeta.
  destruct (truthy systemPrompt); rewrite !dom_insert_L, dom_empty_L; set_solver.
Qed.

Lemma chat_payload_mode (message responseMode sessionId systemPrompt promptStyle : JsVal)
    (h : list Event) :
  chat_payload W message responseMode sessionId systemPrompt promptStyle h !! "mode"
  = Some (JString (mode_for responseMode)).
Proof.
  unfold chat_payload. cbv zeta.
  destruct (truthy systemPrompt); rewrite !lookup_insert; reflexivity.
Qed.

Lemma mode_for_other (responseMode : JsVal) :
  responseMode <> JString "standard" ->
  responseMode <> JString "compare" ->
  mode_for responseMode = "rag".
Proof.
  intros Hs Hc. destruct responseMode as [| |b|x|s|items|props|name message|filename];
    try reflexivity.
  simpl. destruct (String.eqb_spec s "standard") as [->|_]; [congruence|].
  destruct (String.eqb_spec s "compare") as [->|_]; [congruence|reflexivity].
Qed.

Lemma sendMessage_requests (message responseMode sessionId systemPrompt promptStyle : JsVal)
    (h : list Event) :
  http_requests
    (events (sendMessage W message responseMode sessionId systemPrompt promptStyle h))
  = if chat_prints responseMode sessionId systemPrompt promptStyle
    then [ {| client := api W; method := POST; url := "/chat";
              body := JsonBody (JObject (chat_payload W message responseMode sessionId
                                           systemPrompt promptStyle h));
              config := no_config |} ]
    else [].
Proof.
  destruct (chat_prints responseMode sessionId systemPrompt promptStyle) eqn:Hp.
  - rewrite (sendMessage_run _ _ _ _ _ _ Hp).
    apply one_request_requests, chat_logs_no_request.
  - destruct (sendMessage_stops message responseMode sessionId systemPrompt promptStyle
                h Hp) as (pre & e & Hreq & _ & ->).
    simpl. rewrite http_requests_app, Hreq. reflexivity.
Qed.

(** C3.  Whenever [sendMessage] posts, it posts one request, to [/chat],
    whose payload has the fields [message], [session_id], [mode] and
    [prompt_style], and [system_prompt] exactly when the [systemPrompt]
    argument passes the code's presence test (it is truthy).  The [mode]
    field is [no_rag] for the response mode [standard], [compare] for
    [compare] and [rag] for every other argument, a missing one included.
    It posts unless a value of its log lines has no string. *)
Theorem sendMessage_payload
    (message responseMode sessionId systemPrompt promptStyle : JsVal) (h : list Event) :
  let payload :=
    chat_payload W message responseMode sessionId systemPrompt promptStyle h in
  http_requests
    (events (sendMessage W message responseMode sessionId systemPrompt promptStyle h))
  = (if chat_prints responseMode sessionId systemPrompt promptStyle
     then [ {| client := api W; method := POST; url := "/chat";
               body := JsonBody (JObject payload); config := no_config |} ]
     else []) /\
  payload !! "mode" = Some (JString (mode_for responseMode)) /\
  dom payload
  = ({[ "message"; "session_id"; "mode"; "prompt_style" ]} : gset string)
    ∪ (if truthy systemPrompt then {[ "system_prompt" ]} else ∅) /\
  mode_for (JString "standard") = "no_rag" /\
  mode_for (JString "compare") = "compare" /\
  mode_for JUndefined = "rag" /\
  (responseMode <> JString "standard" ->
   responseMode <> JString "compare" ->
   payload !! "mode" = Some (JString "rag")).
Proof.
  intros payload. subst payload.
  split; [apply sendMessage_requests|].
  split; [apply chat_payload_mode|].
  split; [apply chat_payload_dom|].
  do 3 (split; [reflexivity|]).
  intros Hs Hc. rewrite chat_payload_mode, (mode_for_other _ Hs Hc). reflexivity.
Qed.

(** C4.  [runTests] issues one request, a POST through [api], and which one
    is decided by the shape of [testData] as [Spec.dispatch] says: an
    object with a truthy [prompt] goes to [/test/single] with [prompt] and
    [expected_result] (or the empty string); a string without [.csv] goes
    to [/test/single] as [test_file]; a string with [.csv] goes to
    [/chat/batch-test] as [test_file] with [similarity_threshold] 0.7;
    anything else, [null] included, goes to [/test/single] without a
    body. *)
Theorem runTests_dispatch (testData : JsVal) (h : list Event) :
  http_requests (events (runTests W testData h))
  = [ {| client := api W; method := POST;
         url := fst (fst (dispatch testData));
         body := snd (fst (dispatch testData));
         config := snd (dispatch testData) |} ] /\
  dispatch JNull = ("/test/single", NoBody, no_config).
Proof.
  split; [|reflexivity].
  rewrite runTests_run. apply one_request_requests. reflexivity.
Qed.

Lemma sendMessage_returned (message responseMode sessionId systemPrompt promptStyle v : JsVal)
    (h : list Event) :
  result (sendMessage W message responseMode sessionId systemPrompt promptStyle h)
  = Returned v ->
  chat_prints responseMode sessionId systemPrompt promptStyle = true /\
  exists r : AxiosResponse,
    v = JObject (<[ "session_id" := session_id_of W sessionId h ]> (spread (data r))).
Proof.
  destruct (chat_prints responseMode sessionId systemPrompt promptStyle) eqn:Hp.
  - rewrite (sendMessage_run _ _ _ _ _ _ Hp). unfold one_request.
    destruct (backend W _ _) as [r|e]; simpl; [|discriminate].
    intros [= <-]. eauto.
  - destruct (sendMessage_stops message responseMode sessionId systemPrompt promptStyle
                h Hp) as (pre & e & _ & _ & ->).
    discriminate.
Qed.

(** C9.  When [sendMessage] returns, the [session_id] of the object it
    returns is the client-side session id: the [sessionId] argument when
    that passes the code's presence test (it is truthy), else a generated
    string that begins with [session_].  The returned object is the
    response data with [session_id] set after the spread, so a
    [session_id] of the backend's is overwritten. *)
Theorem sendMessage_session_id
    (message responseMode sessionId systemPrompt promptStyle v : JsVal) (h : list Event) :
  result (sendMessage W message responseMode sessionId systemPrompt promptStyle h)
  = Returned v ->
  read_prop v "session_id" = session_id_of W sessionId h /\
  (exists r : AxiosResponse,
     v = JObject (<[ "session_id" := session_id_of W sessionId h ]> (spread (data r)))) /\
  (if truthy sessionId then session_id_of W sessionId h = sessionId
   else exists suffix, session_id_of W sessionId h = JString ("session_" +:+ suffix)).
Proof.
  intros Hv. destruct (sendMessage_returned _ _ _ _ _ _ _ Hv) as (_ & r & ->).
  split; [|split].
  - simpl. rewrite lookup_insert_eq. reflexivity.
  - eauto.
  - unfold session_id_of. destruct (truthy sessionId); eauto.
Qed.

(** C10.  [clearCache] sends one DELETE to [/chat/cache], and the request
    has the parameter [older_than_days] exactly when [olderThanDays] is
    truthy.  So [clearCache(0)] runs as [clearCache(null)] and
    [clearCache()] do, with no parameter at all. *)
Theorem clearCache_params (olderThanDays : JsVal) (h : list Event) :
  http_requests (events (clearCache W olderThanDays h))
  = [ {| client := api W; method := DELETE; url := "/chat/cache"; body := NoBody;
         config := {| params := if truthy olderThanDays
                                then <[ "older_than_days" := olderThanDays ]> ∅
                                else ∅;
                      headers := ∅ |} |} ] /\
  clearCache W (JNumber 0%float) h = clearCache W JNull h /\
  clearCache W JUndefined h = clearCache W JNull h /\
  http_requests (events (clearCache W (JNumber 0%float) h))
  = [ {| client := api W; method := DELETE; url := "/chat/cache"; body := NoBody;
         config := {| params := ∅; headers := ∅ |} |} ].
Proof.
  assert (Hrun : forall o,
    clearCache W o h
    = one_request W []
        {| client := api W; method := DELETE; url := "/chat/cache"; body := NoBody;
           config := {| params := if truthy o then <[ "older_than_days" := o ]> ∅ else ∅;
                        headers := ∅ |} |}
        "Error clearing cache:" data h).
  { intros o. unfold clearCache. cbv zeta. rewrite truthy_default_null.
    destruct (truthy o) eqn:Ho; [rewrite (default_null_truthy o Ho)|];
      apply facade_body. }
  split; [rewrite Hrun; apply one_request_requests; reflexivity|].
  split; [rewrite !Hrun; reflexivity|].
  split; [rewrite !Hrun; reflexivity|].
  rewrite Hrun. apply one_request_requests. reflexivity.
Qed.

End ClientFacts.

(** ** Facts about the test page *)

Section PageFacts.
Import JobPage PageSpec.
Context `{JsEngine}.

Lemma preserves_ret {A} (a : A) : preserves (ret a).
Proof. intros p. reflexivity. Qed.

Lemma preserves_throw {A} (e : JsVal) : preserves (@throw A e).
Proof. intros p. reflexivity. Qed.

Lemma preserves_read {A} (f : Page -> A) : preserves (read f).
Proof. intros p. reflexivity. Qed.

Lemma preserves_bind {A B} (m : P A) (k : A -> P B) :
  preserves m -> (forall a, preserves (k a)) -> preserves (bind m k).
Proof.
  intros Hm Hk p. unfold bind. specialize (Hm p).
  destruct (m p) as [p1 [a|e]]; simpl in *; [|exact Hm].
  now rewrite Hk.
Qed.

Lemma preserves_try_catch {A} (m : P A) (handler : JsVal -> P A) :
  preserves m -> (forall e, preserves (handler e)) -> preserves (try_catch m handler).
Proof.
  intros Hm Hh p. unfold try_catch. specialize (Hm p).
  destruct (m p) as [p1 [a|e]]; simpl in *; [exact Hm|].
  now rewrite Hh.
Qed.

Lemma preserves_update (f : Page -> Page) :
  (forall p, polling (f p) = polling p) -> preserves (update f).
Proof. intros Hf p. apply Hf. Qed.

Lemma preserves_get_prop (v : JsVal) (key : string) : preserves (get_prop v key).
Proof. intros p. unfold get_prop. destruct (is_nullish v); reflexivity. Qed.

Lemma preserves_get_prop_opt (v : JsVal) (key : string) : preserves (get_prop_opt v key).
Proof. intros p. unfold get_prop_opt. destruct (is_nullish v); reflexivity. Qed.

Lemma preserves_toFixed_opt (expr : string) (v : JsVal) (digits : Z) :
  preserves (toFixed_opt expr v digits).
Proof. intros p. destruct v; reflexivity. Qed.

Lemma preserves_str (v : JsVal) : preserves (str v).
Proof. intros p. unfold str. destruct (ToString v); reflexivity. Qed.

Lemma preserves_console_error (args : list JsVal) : preserves (console_error args).
Proof. intros p. reflexivity. Qed.

Lemma preserves_await_fetch (o : FetchOutcome) : preserves (await_fetch o).
Proof. intros p. destruct o; reflexivity. Qed.

Lemma preserves_await_json (r : Response) : preserves (await_json r).
Proof. intros p. unfold await_json. destruct (json r); reflexivity. Qed.

Lemma preserves_if {A} (b : bool) (m1 m2 : P A) :
  preserves m1 -> preserves m2 -> preserves (if b then m1 else m2).
Proof. destruct b; auto. Qed.

Ltac preserved :=
  repeat first
    [ apply preserves_ret | apply preserves_throw | apply preserves_read
    | apply preserves_get_prop | apply preserves_get_prop_opt
    | apply preserves_toFixed_opt | apply preserves_console_error
    | apply preserves_str
    | apply preserves_await_fetch | apply preserves_await_json
    | apply preserves_update; intros ?; reflexivity
    | apply preserves_if
    | apply preserves_try_catch; [|intros ?]
    | apply preserves_bind; [|intros ?]
    | intro ].

(** The catch block of [checkJobStatus]. *)
Lemma check_handler_preserves (error : JsVal) : preserves (checkJobStatus_catch error).
Proof. unfold checkJobStatus_catch. preserved. Qed.

Lemma try_step {A B} (m : P A) (k : A -> P B) (handler : JsVal -> P B)
    (p p1 : Page) (a : A) :
  m p = (p1, Returned a) ->
  try_catch (bind m k) handler p = try_catch (k a) handler p1.
Proof. intros Hm. unfold try_catch, bind. rewrite Hm. reflexivity. Qed.

Lemma try_step_throw {A B} (m : P A) (k : A -> P B) (handler : JsVal -> P B)
    (p p1 : Page) (e : JsVal) :
  m p = (p1, Thrown e) ->
  try_catch (bind m k) handler p = handler e p1.
Proof. intros Hm. unfold try_catch, bind. rewrite Hm. reflexivity. Qed.

Lemma try_assoc {A B C} (m : P A) (k1 : A -> P B) (k2 : B -> P C)
    (handler : JsVal -> P C) (p : Page) :
  try_catch (bind (bind m k1) k2) handler p
  = try_catch (bind m (fun a => bind (k1 a) k2)) handler p.
Proof.
  unfold try_catch, bind. destruct (m p) as [p1 [a|e]]; [|reflexivity].
  destruct (k1 a p1) as [p2 [b|e]]; reflexivity.
Qed.

Lemma get_prop_returns (v : JsVal) (key : string) (p : Page) :
  is_nullish v = false -> get_prop v key p = (p, Returned (read_prop v key)).
Proof. intros Hv. unfold get_prop. rewrite Hv. reflexivity. Qed.

Lemma get_prop_throws (v : JsVal) (key : string) (p : Page) :
  is_nullish v = true -> get_prop v key p = (p, Thrown (read_error v key)).
Proof. intros Hv. unfold get_prop. rewrite Hv. reflexivity. Qed.

Lemma str_returns (v : JsVal) (p : Page) :
  prints v = true -> str v p = (p, Returned (to_string v)).
Proof.
  unfold prints, str, to_string. destruct (ToString v); [reflexivity|discriminate].
Qed.

Lemma str_throws (v : JsVal) (p : Page) :
  prints v = false -> str v p = (p, Thrown (convert_error v)).
Proof.
  unfold prints, str. destruct (ToString v); [discriminate|reflexivity].
Qed.

Ltac run_step :=
  first
    [ erewrite try_step by
        first [ reflexivity
              | apply get_prop_returns; assumption
              | apply str_returns; assumption ]
    | erewrite try_step_throw by
        first [ reflexivity
              | apply get_prop_throws; assumption
              | apply str_throws; assumption ] ].

Lemma is_terminal_nullish (jobData : JsVal) :
  is_nullish jobData = true -> is_terminal jobData = false.
Proof. intros Hn. unfold is_terminal. rewrite Hn. reflexivity. Qed.

Lemma falsy_value_prints (v : JsVal) : truthy v = false -> prints v = true.
Proof. destruct v as [| |[|]| | | | | |]; try reflexivity; simpl; discriminate. Qed.

Lemma terminal_status_prints (jobData : JsVal) :
  strict_eq_str (read_prop jobData "status") "completed"
  || strict_eq_str (read_prop jobData "status") "failed" = true ->
  prints (read_prop jobData "status") = true.
Proof.
  destruct (read_prop jobData "status"); simpl; try discriminate. reflexivity.
Qed.

Ltac caught :=
  etransitivity; [apply check_handler_preserves|];
  simpl; rewrite ?andb_false_r; reflexivity.

(** What a settled status check does to the poll loop: it tears it down
    when it carries a status response that is terminal and whose status
    line can be written, and leaves it alone otherwise. *)
Lemma checkJobStatus_polling (o : FetchOutcome) (p : Page) :
  polling (fst (checkJobStatus_resume o p))
  = match ok_body o with
    | Some jobData =>
        if is_terminal jobData && status_prints jobData
        then torn_down (polling p) else polling p
    | None => polling p
    end.
Proof.
  unfold checkJobStatus_resume.
  destruct o as [name message|[okay code text [jobData|name message]]];
    simpl ok_body.
  - run_step. apply check_handler_preserves.
  - run_step. simpl ok. destruct okay; simpl negb; cbv iota.
    + run_step. run_step.
      destruct (is_nullish jobData) eqn:Hn.
      * run_step. rewrite (is_terminal_nullish _ Hn). apply check_handler_preserves.
      * run_step. unfold is_terminal, status_prints. rewrite Hn. simpl negb.
        rewrite andb_true_l.
        destruct (is_defined (read_prop jobData "progress"));
          [rewrite try_assoc; run_step; rewrite try_assoc;
           destruct (prints (read_prop jobData "progress")) eqn:Hprogress;
           [run_step; run_step|run_step; caught]
          |run_step];
          (run_step;
           destruct (prints (read_prop jobData "status")) eqn:Hstatus;
           [run_step|run_step; caught];
           run_step;
           destruct (prints (js_or (read_prop jobData "message") (JString ""))) eqn:Hmessage;
           [run_step|run_step; caught];
           run_step; run_step; rewrite !andb_true_r;
           destruct (strict_eq_str (read_prop jobData "status") "completed") eqn:Hc;
           [|destruct (strict_eq_str (read_prop jobData "status") "failed") eqn:Hf];
           simpl orb; cbv iota).
        all: try (unfold clearInterval; do 3 run_step;
                  match goal with
                  | |- polling (fst (try_catch ?m ?hd ?q)) = _ =>
                      transitivity (polling q);
                      [apply (preserves_try_catch m hd); preserved;
                       apply check_handler_preserves
                      |unfold torn_down, polling; simpl;
                       destruct (pollInterval p) eqn:Hh; simpl; rewrite ?Hh; reflexivity]
                  end).
        all: reflexivity.
    + run_step. apply check_handler_preserves.
  - run_step. simpl ok. destruct okay; simpl negb; cbv iota.
    + run_step. run_step. apply check_handler_preserves.
    + run_step. apply check_handler_preserves.
Qed.

(** A tick leaves the poll loop alone, whether it asks for the job or
    not. *)
Lemma checkJobStatus_begin_polling (p : Page) :
  polling (fst (checkJobStatus_begin p)) = polling p.
Proof.
  unfold checkJobStatus_begin.
  destruct (negb (truthy (jobId p))); [reflexivity|].
  destruct (ToString (jobId p)); [reflexivity|].
  apply check_handler_preserves.
Qed.

Lemma check_error_no_body (o : FetchOutcome) (e : JsVal) :
  check_error o = Some e -> ok_body o = None.
Proof.
  destruct o as [name message|[okay code text js]]; simpl; [reflexivity|].
  destruct okay; [discriminate|reflexivity].
Qed.

(** What a failed status check leaves behind. *)
Lemma checkJobStatus_failed (o : FetchOutcome) (e : JsVal) (p : Page) :
  check_error o = Some e ->
  console (fst (checkJobStatus_resume o p))
  = console p ++ [(LError, [JString "Error checking job status:"; e])] /\
  jobStatus_textContent (fst (checkJobStatus_resume o p))
  = "Error checking status: " +:+ to_string (read_prop e "message").
Proof.
  unfold checkJobStatus_resume, checkJobStatus_catch.
  destruct o as [name message|[okay code text js]]; simpl check_error.
  - intros [= <-]. run_step. split; reflexivity.
  - destruct okay; [discriminate|]. intros [= <-].
    run_step. simpl ok. simpl negb. cbv iota. run_step. split; reflexivity.
Qed.

(** What the settled start request does to the poll loop.  With the
    parsed body of an ok response whose [job_id] has a string it starts the
    loop; when the [job_id] has none, the job id is stored and the button
    enabled, and no timer is made; with anything else it enables the button
    again. *)
Lemma startButton_click_resume_polling (o : FetchOutcome) (p : Page) :
  polling (fst (startButton_click_resume o p))
  = match ok_body o with
    | Some jobData =>
        if is_nullish jobData then enabled (polling p)
        else if prints (read_prop jobData "job_id") then started jobData (polling p)
        else id_kept jobData (polling p)
    | None => enabled (polling p)
    end.
Proof.
  unfold startButton_click_resume, startButton_click_catch.
  destruct o as [name message|[okay code text [jobData|name message]]]; simpl ok_body.
  - run_step. reflexivity.
  - run_step. simpl ok. destruct okay; simpl negb; cbv iota.
    + run_step. run_step. destruct (is_nullish jobData) eqn:Hn.
      * run_step. reflexivity.
      * run_step. run_step. run_step. simpl jobId.
        destruct (prints (read_prop jobData "job_id")) eqn:Hid.
        -- do 6 run_step. reflexivity.
        -- run_step. unfold convert_error. reflexivity.
    + run_step. reflexivity.
  - run_step. simpl ok. destruct okay; simpl negb; cbv iota.
    + run_step. run_step. reflexivity.
    + run_step. reflexivity.
Qed.

Lemma startButton_click_polling (files : list string) (value : string) (p : Page) :
  timers (fst (startButton_click files value p)) = timers p.
Proof. destruct files; reflexivity. Qed.

Lemma timers_polling (p : Page) : timers p = p_timers (polling p).
Proof. reflexivity. Qed.

Lemma disabled_polling (p : Page) : startButton_disabled p = p_disabled (polling p).
Proof. reflexivity. Qed.

Lemma five_seconds_step (p p' : Page) : five_seconds p -> step p p' -> five_seconds p'.
Proof.
  intros Hp Hstep handle t. destruct Hstep as [files value p|o p|p|o p].
  - rewrite startButton_click_polling. apply Hp.
  - rewrite timers_polling, startButton_click_resume_polling.
    destruct (ok_body o) as [jobData|];
      [destruct (is_nullish jobData);
       [|destruct (prints (read_prop jobData "job_id"))]|];
      simpl; try apply Hp.
    rewrite lookup_insert. case_decide; [congruence|apply Hp].
  - rewrite timers_polling, checkJobStatus_begin_polling. apply Hp.
  - rewrite timers_polling, checkJobStatus_polling.
    destruct (ok_body o) as [jobData|];
      [destruct (is_terminal jobData && status_prints jobData)|];
      simpl; try apply Hp.
    destruct (pollInterval p) as [h|]; [|apply Hp].
    rewrite lookup_delete. case_decide; [discriminate|apply Hp].
Qed.

Lemma five_seconds_reachable (p : Page) : reachable p -> five_seconds p.
Proof.
  induction 1 as [|p p' _ IH Hstep].
  - intros handle t. simpl. rewrite lookup_empty. discriminate.
  - exact (five_seconds_step p p' IH Hstep).
Qed.

Lemma strict_eq_str_spec (v : JsVal) (s : string) :
  strict_eq_str v s = true <-> v = JString s.
Proof.
  destruct v; simpl; try (split; [discriminate|congruence]).
  destruct (String.eqb_spec s0 s); split; congruence.
Qed.

Lemma is_terminal_spec (jobData : JsVal) :
  is_terminal jobData = true <->
  read_prop jobData "status" = JString "completed" \/
  read_prop jobData "status" = JString "failed".
Proof.
  unfold is_terminal. rewrite andb_true_iff, orb_true_iff, !strict_eq_str_spec.
  split; [tauto|]. intros Hs. split; [|exact Hs].
  destruct jobData; try reflexivity; simpl in Hs; destruct Hs; discriminate.
Qed.

(** C1.  For a status response [jobData] (the parsed body of an ok
    response) a settled [checkJobStatus] tears the poll loop down, the
    interval under [pollInterval] cleared and the start button enabled,
    when the [status] of [jobData] is the string [completed] or [failed]
    and the status line can be written, that is, the [progress], [status]
    and [message] of the response have strings; for any other response it
    leaves timers and button as they were.  So a running interval is
    cleared, and a disabled button enabled, if and only if the status is
    one of the two and the status line can be written: a terminal status
    alone is not enough, since the status line is written first and its
    template literals throw on a value without a string. *)
Theorem checkJobStatus_stops_on_terminal (p : Page) (o : FetchOutcome) (jobData : JsVal) :
  ok_body o = Some jobData ->
  let p' := fst (checkJobStatus_resume o p) in
  (is_terminal jobData = true <->
   read_prop jobData "status" = JString "completed" \/
   read_prop jobData "status" = JString "failed") /\
  polling p' = (if is_terminal jobData && status_prints jobData
                then torn_down (polling p) else polling p) /\
  (forall handle t,
     pollInterval p = Some handle -> timers p !! handle = Some t ->
     (timers p' !! handle = None <->
      is_terminal jobData = true /\ status_prints jobData = true)) /\
  (startButton_disabled p = true ->
   (startButton_disabled p' = false <->
    is_terminal jobData = true /\ status_prints jobData = true)).
Proof.
  intros Hbody p'.
  assert (Hpoll : polling p' = if is_terminal jobData && status_prints jobData
                               then torn_down (polling p) else polling p).
  { subst p'. rewrite checkJobStatus_polling, Hbody. reflexivity. }
  split; [apply is_terminal_spec|]. split; [exact Hpoll|]. split.
  - intros handle t Hh Ht. rewrite timers_polling, Hpoll, <- andb_true_iff.
    destruct (is_terminal jobData && status_prints jobData); simpl.
    + rewrite Hh, lookup_delete_eq. tauto.
    + rewrite Ht. split; discriminate.
  - intros Hd. rewrite disabled_polling, Hpoll, <- andb_true_iff.
    destruct (is_terminal jobData && status_prints jobData); simpl; [tauto|].
    rewrite Hd. split; discriminate.
Qed.

(** C8.  When a status check fails, the fetch rejected or the response not
    ok, [checkJobStatus] prints the error with [console.error] and shows
    its message in the status element, and the poll loop is as it was: no
    timer is cleared, the handle is kept, and the start button stays as it
    is.  On a page the script has produced, the timers so kept fire every
    5000 ms. *)
Theorem checkJobStatus_error_keeps_polling (p : Page) (o : FetchOutcome) (e : JsVal) :
  check_error o = Some e ->
  let p' := fst (checkJobStatus_resume o p) in
  console p' = console p ++ [(LError, [JString "Error checking job status:"; e])] /\
  jobStatus_textContent p' = "Error checking status: " +:+ to_string (read_prop e "message") /\
  timers p' = timers p /\
  pollInterval p' = pollInterval p /\
  startButton_disabled p' = startButton_disabled p /\
  (reachable p -> five_seconds p').
Proof.
  intros He p'.
  assert (Hpoll : polling p' = polling p).
  { subst p'. rewrite checkJobStatus_polling, (check_error_no_body o e He). reflexivity. }
  destruct (checkJobStatus_failed o e p He) as [Hc Ht].
  split; [exact Hc|]. split; [exact Ht|].
  split; [exact (f_equal p_timers Hpoll)|].
  split; [exact (f_equal p_pollInterval Hpoll)|].
  split; [exact (f_equal p_disabled Hpoll)|].
  intros Hr. apply (five_seconds_step p); [now apply five_seconds_reachable|].
  apply step_checked.
Qed.


End PageFacts.

(** ** The facts at work on the samples *)

Section Worked.
Import Samples.
Existing Instance engine.

Example includes_csv : includes "suites/nightly.csv" ".csv" = true.
Proof. reflexivity. Qed.

Example includes_no_csv : includes "what is rag" ".csv" = false.
Proof. reflexivity. Qed.

Example array_has_no_prompt :
  read_prop (JArray [JString "prompt"]) "prompt" = JUndefined.
Proof. reflexivity. Qed.

Example zero_is_falsy : truthy (JNumber 0%float) = false.
Proof. reflexivity. Qed.

(** An object with a [toString] of its own that is no function has no
    string, and neither has an array that holds one; an object without one
    prints as every plain object does. *)
Example unprintable_has_no_string :
  ToString unprintable = None /\
  ToString (JArray [JNumber 30%float; unprintable]) = None /\
  ToString (JObject ∅) = Some "[object Object]" /\
  ToString (JArray [JNumber 30%float; JNull; JString "a"]) = Some "30,,a".
Proof. repeat split; reflexivity. Qed.

(** [sendMessage("hi", undefined, "")]: the empty session id does not pass
    the presence test, so one is generated. *)
Example sendMessage_empty_session_id :
  Client.result
    (Client.sendMessage up (JString "hi") JUndefined (JString "") JUndefined JUndefined [])
  = Returned (JObject (<[ "session_id" := JString "session_k3j9x2m1q8w5" ]>
                         (<[ "response" := JString "hello" ]> ∅))).
Proof. reflexivity. Qed.

(** [sendMessage("hi", {toString: 0})]: the log line cannot be written,
    so nothing is posted, and the [TypeError] is printed and thrown. *)
Example sendMessage_unprintable_mode :
  Client.sendMessage up (JString "hi") unprintable JUndefined JUndefined JUndefined []
  = ([Client.Log Client.LError
        [JString "Error sending message:";
         JError "TypeError" "Cannot convert object to primitive value"]],
     Thrown (JError "TypeError" "Cannot convert object to primitive value")).
Proof. reflexivity. Qed.

(** [runTests(null)] posts to [/test/single] without a body. *)
Example runTests_null :
  Client.http_requests (Client.events (Client.runTests up JNull []))
  = [ {| Client.client := Client.api up; Client.method := Client.POST;
         Client.url := "/test/single"; Client.body := Client.NoBody;
         Client.config := Client.no_config |} ].
Proof. reflexivity. Qed.

(** [startBatchTest(file)] posts the form to the start endpoint, the
    threshold in the query string. *)
Example startBatchTest_url :
  map Client.url
    (Client.http_requests
       (Client.events (Client.startBatchTest up (JFile "tests.csv") JUndefined [])))
  = ["/test/batch/start?similarity_threshold=0.7"].
Proof. reflexivity. Qed.

(** A [completed] status with a [pass_rate] that is no number: the interval
    is cleared before the formatting throws. *)
Example completed_with_bad_pass_rate :
  JobPage.timers (fst (JobPage.checkJobStatus_resume job_completed_badly polling_page)) = ∅ /\
  JobPage.jobStatus_textContent
    (fst (JobPage.checkJobStatus_resume job_completed_badly polling_page))
  = "Error checking status: result.pass_rate.toFixed is not a function".
Proof. split; reflexivity. Qed.

Example polling_page_timers :
  JobPage.timers polling_page
  = <[ 1%nat := {| JobPage.callback := JobPage.CheckJobStatus; JobPage.delay := 5000 |} ]> ∅.
Proof. reflexivity. Qed.

Example polling_page_button : JobPage.startButton_disabled polling_page = true.
Proof. reflexivity. Qed.

(** [healthCheck()], [clearCache(30)] and [sendMessage("hi")] against a
    backend that is down. *)
Lemma facade_rethrows_witness :
  Client.result (Client.invoke down Client.HealthCheck []) = Thrown network_error /\
  Client.result (Client.invoke down (Client.ClearCache (JNumber 30%float)) [])
  = Thrown network_error /\
  Client.result
    (Client.invoke down
       (Client.SendMessage (JString "hi") JUndefined JUndefined JUndefined JUndefined) [])
  = Thrown network_error.
Proof.
  split; [|split].
  - destruct (facade_rethrows down Client.HealthCheck []) as [_ Hthrow].
    apply (Hthrow []
             {| Client.client := Client.api down; Client.method := Client.GET;
                Client.url := "/health"; Client.body := Client.NoBody;
                Client.config := Client.no_config |}
             [Client.Log Client.LError [JString "Health check failed:"; network_error]]
             network_error); reflexivity.
  - destruct (facade_rethrows down (Client.ClearCache (JNumber 30%float)) [])
      as [_ Hthrow].
    apply (Hthrow []
             {| Client.client := Client.api down; Client.method := Client.DELETE;
                Client.url := "/chat/cache"; Client.body := Client.NoBody;
                Client.config :=
                  {| Client.params := <[ "older_than_days" := JNumber 30%float ]> ∅;
                     Client.headers := ∅ |} |}
             [Client.Log Client.LError [JString "Error clearing cache:"; network_error]]
             network_error); reflexivity.
  - destruct (facade_rethrows down
                (Client.SendMessage (JString "hi") JUndefined JUndefined JUndefined
                   JUndefined) [])
      as [_ Hthrow].
    apply (Hthrow
             (Spec.chat_logs down JUndefined JUndefined JUndefined JUndefined [])
             {| Client.client := Client.api down; Client.method := Client.POST;
                Client.url := "/chat";
                Client.body :=
                  Client.JsonBody
                    (JObject (Spec.chat_payload down (JString "hi") JUndefined JUndefined
                                JUndefined JUndefined []));
                Client.config := Client.no_config |}
             [Client.Log Client.LError [JString "Error sending message:"; network_error]]
             network_error); reflexivity.
Defined.

(** [getAllTestJobs()], [getTestJobStatus("job-1")] and
    [sendMessage("hi", "rag", "abc")] against a backend that answers. *)
Lemma facade_returns_witness :
  Client.result (Client.invoke up Client.GetAllTestJobs []) = Returned (Client.data answer) /\
  Client.result (Client.invoke up (Client.GetTestJobStatus (JString "job-1")) [])
  = Returned (Client.data answer) /\
  exists sid,
    Client.result
      (Client.invoke up
         (Client.SendMessage (JString "hi") (JString "rag") (JString "abc") JUndefined
            JUndefined) [])
    = Returned (JObject (<[ "session_id" := sid ]> (spread (Client.data answer)))).
Proof.
  split; [|split].
  - destruct (facade_returns up Client.GetAllTestJobs []) as (_ & Hreturn & _).
    apply (Hreturn []
             {| Client.client := Client.api up; Client.method := Client.GET;
                Client.url := "/test/jobs"; Client.body := Client.NoBody;
                Client.config := Client.no_config |}
             [] answer); reflexivity.
  - destruct (facade_returns up (Client.GetTestJobStatus (JString "job-1")) [])
      as (_ & Hreturn & _).
    apply (Hreturn []
             {| Client.client := Client.api up; Client.method := Client.GET;
                Client.url := "/test/jobs/job-1"; Client.body := Client.NoBody;
                Client.config := Client.no_config |}
             [] answer); reflexivity.
  - destruct (facade_returns up
                (Client.SendMessage (JString "hi") (JString "rag") (JString "abc")
                   JUndefined JUndefined) [])
      as (_ & Hreturn & _).
    apply (Hreturn
             (Spec.chat_logs up (JString "rag") (JString "abc") JUndefined JUndefined [])
             {| Client.client := Client.api up; Client.method := Client.POST;
                Client.url := "/chat";
                Client.body :=
                  Client.JsonBody
                    (JObject (Spec.chat_payload up (JString "hi") (JString "rag")
                                (JString "abc") JUndefined JUndefined []));
                Client.config := Client.no_config |}
             [] answer); reflexivity.
Defined.

(** [sendMessage("hi", "detailed")]: a mode the code does not know. *)
Lemma sendMessage_payload_witness :
  Spec.chat_payload up (JString "hi") (JString "detailed") JUndefined JUndefined JUndefined []
    !! "mode" = Some (JString "rag").
Proof.
  apply (sendMessage_payload up (JString "hi") (JString "detailed")
           JUndefined JUndefined JUndefined []); discriminate.
Defined.

(** [sendMessage("hi", "rag", "abc")] when the backend's data has a
    [session_id] of its own. *)
Lemma sendMessage_session_id_witness :
  read_prop
    (JObject (<[ "session_id" := JString "abc" ]> (spread (Client.data answer))))
    "session_id"
  = JString "abc".
Proof.
  apply (sendMessage_session_id up (JString "hi") (JString "rag") (JString "abc")
           JUndefined JUndefined
           (JObject (<[ "session_id" := JString "abc" ]> (spread (Client.data answer))))
           []).
  reflexivity.
Defined.

(** The polling page when the job reports [completed]. *)
Lemma checkJobStatus_stops_on_terminal_witness :
  JobPage.timers (fst (JobPage.checkJobStatus_resume job_completed polling_page)) !! 1%nat
  = None.
Proof.
  apply (checkJobStatus_stops_on_terminal polling_page job_completed completed eq_refl)
    with (t := {| JobPage.callback := JobPage.CheckJobStatus; JobPage.delay := 5000 |});
    [reflexivity|reflexivity|split; reflexivity].
Defined.

(** The polling page when the job reports [completed] with a [message]
    that has no string: the status is terminal, and yet the interval is
    still there and the start button still disabled, since the status line
    threw before the interval was cleared. *)
Lemma completed_status_keeps_polling :
  PageSpec.ok_body job_completed_unprintable = Some completed_unprintable /\
  read_prop completed_unprintable "status" = JString "completed" /\
  JobPage.pollInterval polling_page = Some 1%nat /\
  JobPage.timers (fst (JobPage.checkJobStatus_resume job_completed_unprintable polling_page))
    !! 1%nat
  = Some {| JobPage.callback := JobPage.CheckJobStatus; JobPage.delay := 5000 |} /\
  JobPage.startButton_disabled
    (fst (JobPage.checkJobStatus_resume job_completed_unprintable polling_page))
  = true /\
  JobPage.jobStatus_textContent
    (fst (JobPage.checkJobStatus_resume job_completed_unprintable polling_page))
  = "Error checking status: Cannot convert object to primitive value".
Proof. repeat split; reflexivity. Qed.

(** The polling page when the status endpoint answers 503. *)
Lemma checkJobStatus_error_keeps_polling_witness :
  JobPage.timers (fst (JobPage.checkJobStatus_resume unavailable polling_page))
  = JobPage.timers polling_page /\
  JobPage.startButton_disabled (fst (JobPage.checkJobStatus_resume unavailable polling_page))
  = true.
Proof.
  destruct (checkJobStatus_error_keeps_polling polling_page unavailable
              (JError "Error" "Error checking job: 503 Service Unavailable") eq_refl)
    as (_ & _ & Ht & _ & Hd & _).
  split; [exact Ht|exact Hd].
Defined.



End Worked.

(** ** More facts about the API client *)

Section ClientMore.
Import Client Spec.
Context `{JsEngine} (W : World).

(** X1.  The base URL of the client is never falsy: an environment value
    that is missing or the empty string gives [http://localhost:8005], so
    the client never runs with an empty base URL. *)
Theorem api_base_url_never_empty :
  truthy (baseURL (api W)) = true /\
  baseURL (api W) <> JString "" /\
  (REACT_APP_API_URL W = JUndefined \/ REACT_APP_API_URL W = JString "" ->
   baseURL (api W) = JString "http://localhost:8005").
Proof.
  assert (Ht : truthy (baseURL (api W)) = true).
  { simpl. unfold API_URL, js_or.
    destruct (truthy (REACT_APP_API_URL W)) eqn:He; [exact He|reflexivity]. }
  split; [exact Ht|]. split.
  - intros Heq. rewrite Heq in Ht. discriminate.
  - intros [He|He]; simpl; unfold API_URL; rewrite He; reflexivity.
Qed.

(** X2.  A facade method prints with [console.error] exactly when it
    throws: a call that returns has printed no error line, and a call that
    throws [e] has printed one, which carries [e]. *)
Theorem error_logged_iff_thrown (c : Call) (h : list Event) :
  exists msg,
    error_logs (events (invoke W c h))
    = match result (invoke W c h) with
      | Returned _ => []
      | Thrown e => [[JString msg; e]]
      end.
Proof.
  destruct (invoke_run W c h) as (pre & msg & _ & Hpre & Hrun).
  exists msg. destruct (call_prints c).
  - destruct Hrun as (req & sid & _ & _ & ->). unfold one_request.
    destruct (backend W (h ++ pre) req); simpl;
      rewrite error_logs_app, Hpre; reflexivity.
  - destruct Hrun as (e & ->). simpl. rewrite error_logs_app, Hpre. reflexivity.
Qed.

Lemma session_id_of_truthy (sessionId : JsVal) (h : list Event) :
  truthy (session_id_of W sessionId h) = true.
Proof.
  unfold session_id_of. destruct (truthy sessionId) eqn:Hs; [exact Hs|reflexivity].
Qed.

Lemma session_id_of_given (sessionId : JsVal) (h : list Event) :
  truthy sessionId = true -> session_id_of W sessionId h = sessionId.
Proof. intros Hs. unfold session_id_of. now rewrite Hs. Qed.

Lemma chat_payload_lookup (message responseMode sessionId systemPrompt promptStyle : JsVal)
    (h : list Event) :
  let payload := chat_payload W message responseMode sessionId systemPrompt promptStyle h in
  payload !! "message" = Some message /\
  payload !! "session_id" = Some (session_id_of W sessionId h) /\
  payload !! "prompt_style" = Some (default_param promptStyle (JString "default")) /\
  payload !! "system_prompt" = (if truthy systemPrompt then Some systemPrompt else None).
Proof.
  unfold chat_payload. cbv zeta.
  destruct (truthy systemPrompt); repeat split; rewrite !lookup_insert; reflexivity.
Qed.

Lemma chat_prints_session_id (responseMode sessionId systemPrompt promptStyle : JsVal) :
  chat_prints responseMode sessionId systemPrompt promptStyle = true ->
  prints sessionId = true.
Proof. unfold chat_prints. rewrite !andb_true_iff. tauto. Qed.

(** X3.  The session id [sendMessage] returns is fit for the next call: it
    is truthy and has a string, so a call that is given it and posts (its
    other log values have strings too) sends it as the payload's
    [session_id], with no new one generated, and returns it again. *)
Theorem sendMessage_session_round_trip
    (message responseMode sessionId systemPrompt promptStyle v : JsVal) (h : list Event)
    (message' responseMode' systemPrompt' promptStyle' : JsVal) (h' : list Event) :
  result (sendMessage W message responseMode sessionId systemPrompt promptStyle h)
  = Returned v ->
  let sid := read_prop v "session_id" in
  let requests :=
    http_requests
      (events (sendMessage W message' responseMode' sid systemPrompt' promptStyle' h')) in
  truthy sid = true /\
  prints sid = true /\
  length requests
  = (if chat_prints responseMode' sid systemPrompt' promptStyle' then 1 else 0) /\
  (forall req, In req requests ->
     exists payload,
       req = {| client := api W; method := POST; url := "/chat";
                body := JsonBody (JObject payload); config := no_config |} /\
       payload !! "session_id" = Some sid) /\
  (forall v',
     result (sendMessage W message' responseMode' sid systemPrompt' promptStyle' h')
     = Returned v' ->
     read_prop v' "session_id" = sid).
Proof.
  intros Hv sid requests. subst sid requests.
  destruct (sendMessage_returned W _ _ _ _ _ _ _ Hv) as (Hprints & r & ->).
  simpl read_prop. rewrite lookup_insert_eq. simpl default.
  pose proof (session_id_of_truthy sessionId h) as Ht.
  split; [exact Ht|]. split.
  { rewrite prints_session_id. exact (chat_prints_session_id _ _ _ _ Hprints). }
  rewrite sendMessage_requests. split; [|split].
  - destruct (chat_prints responseMode' _ systemPrompt' promptStyle'); reflexivity.
  - intros req Hin.
    destruct (chat_prints responseMode' _ systemPrompt' promptStyle'); [|destruct Hin].
    destruct Hin as [<-|[]]. eexists. split; [reflexivity|].
    destruct (chat_payload_lookup message' responseMode' (session_id_of W sessionId h)
                systemPrompt' promptStyle' h') as (_ & Hs & _).
    now rewrite Hs, (session_id_of_given _ h' Ht).
  - intros v' Hv'.
    destruct (sendMessage_returned W _ _ _ _ _ _ _ Hv') as (_ & r' & ->).
    simpl. rewrite lookup_insert_eq. simpl. exact (session_id_of_given _ h' Ht).
Qed.

(** X4.  [sendMessage] posts one request when the values of its log lines
    have strings and none otherwise, and the payload it posts carries the
    arguments as they are: [message] is the message, whatever it is;
    [prompt_style] is the argument, and [default] only when the argument
    is [undefined] (a [null] is sent as [null]); [system_prompt], when
    there, is the argument. *)
Theorem sendMessage_payload_fields
    (message responseMode sessionId systemPrompt promptStyle : JsVal) (h : list Event) :
  let requests :=
    http_requests
      (events (sendMessage W message responseMode sessionId systemPrompt promptStyle h)) in
  length requests
  = (if chat_prints responseMode sessionId systemPrompt promptStyle then 1 else 0) /\
  (forall req, In req requests ->
     exists payload,
       req = {| client := api W; method := POST; url := "/chat";
                body := JsonBody (JObject payload); config := no_config |} /\
       payload !! "message" = Some message /\
       payload !! "prompt_style"
       = Some (match promptStyle with JUndefined => JString "default" | _ => promptStyle end) /\
       payload !! "system_prompt" = (if truthy systemPrompt then Some systemPrompt else None)).
Proof.
  intros requests. subst requests. rewrite sendMessage_requests. split.
  - destruct (chat_prints _ _ _ _); reflexivity.
  - intros req Hin. destruct (chat_prints _ _ _ _); [|destruct Hin].
    destruct Hin as [<-|[]]. eexists. split; [reflexivity|].
    destruct (chat_payload_lookup message responseMode sessionId systemPrompt promptStyle h)
      as (Hm & _ & Hp & Hs).
    split; [exact Hm|]. split; [exact Hp|exact Hs].
Qed.

Lemma starts_with_spec (sub str : string) :
  starts_with sub str = true <-> exists rest, str = sub +:+ rest.
Proof.
  revert str. induction sub as [|c sub IH]; intros str; simpl.
  - split; eauto.
  - destruct str as [|d str].
    + split; [discriminate|]. intros [rest Hr]. discriminate.
    + rewrite andb_true_iff, IH. split.
      * intros [Hc [rest ->]]. apply Ascii.eqb_eq in Hc as ->. eauto.
      * intros [rest [= -> ->]]. split; [apply Ascii.eqb_refl|eauto].
Qed.

Lemma includes_spec (str sub : string) :
  includes str sub = true <-> exists before after, str = before +:+ sub +:+ after.
Proof.
  induction str as [|c str IH]; simpl; rewrite orb_true_iff, starts_with_spec.
  - split.
    + intros [[rest Hr]|Hf]; [|discriminate]. exists "", rest. exact Hr.
    + intros ([|d before] & after & Heq); [|discriminate]. left. eauto.
  - rewrite IH. split.
    + intros [[rest Hr]|(before & after & ->)].
      * exists "", rest. exact Hr.
      * exists (String c before), after. reflexivity.
    + intros ([|d before] & after & Heq).
      * left. eauto.
      * injection Heq as -> ->. right. eauto.
Qed.

(** X5.  [runTests] posts to [/chat/batch-test] exactly when its argument
    is a string in which [.csv] occurs somewhere; every other call posts to
    [/test/single].  The parameter [similarity_threshold], always 0.7, goes
    with the batch request and with no other. *)
Theorem runTests_batch_iff_csv (testData : JsVal) (h : list Event) :
  exists req,
    http_requests (events (runTests W testData h)) = [req] /\
    (url req = "/chat/batch-test" <->
     exists before after, testData = JString (before +:+ ".csv" +:+ after)) /\
    (url req = "/chat/batch-test" \/ url req = "/test/single") /\
    params (config req) !! "similarity_threshold"
    = (if String.eqb (url req) "/chat/batch-test" then Some (JNumber 0.7%float) else None).
Proof.
  eexists. split; [rewrite runTests_run; apply one_request_requests; reflexivity|].
  simpl.
  destruct testData as [| |b|x|s|items|props|name message|filename]; simpl;
    try (split; [split; [discriminate|intros (? & ? & [=])]|split; [right|]; reflexivity]).
  - destruct (includes s ".csv") eqn:Hi; simpl.
    + split; [|split; [left|]; reflexivity].
      split; [intros _|reflexivity].
      apply includes_spec in Hi as (before & after & ->). eauto.
    + split; [|split; [right|]; reflexivity].
      split; [discriminate|]. intros (before & after & [= ->]).
      assert (includes (before +:+ ".csv" +:+ after) ".csv" = true) as Ht
        by (apply includes_spec; eauto).
      rewrite Ht in Hi. discriminate.
  - destruct (truthy (default JUndefined (props !! "prompt"))); simpl;
      (split; [split; [discriminate|intros (? & ? & [=])]|split; [right|]; reflexivity]).
Qed.

(** X6.  For an object with a truthy [prompt], [runTests] posts a body of
    exactly two fields: [prompt], and [expected_result], which is the
    object's own when that is truthy and the empty string otherwise.  No
    other field of the object is forwarded. *)
Theorem runTests_single_prompt (props : gmap string JsVal) (h : list Event) :
  truthy (default JUndefined (props !! "prompt")) = true ->
  exists payload,
    http_requests (events (runTests W (JObject props) h))
    = [ {| client := api W; method := POST; url := "/test/single";
           body := JsonBody (JObject payload); config := no_config |} ] /\
    dom payload = ({[ "prompt"; "expected_result" ]} : gset string) /\
    payload !! "prompt" = props !! "prompt" /\
    payload !! "expected_result"
    = Some (if truthy (default JUndefined (props !! "expected_result"))
            then default JUndefined (props !! "expected_result")
            else JString "").
Proof.
  intros Hp. eexists. split.
  { rewrite runTests_run, one_request_requests by reflexivity.
    simpl. rewrite Hp. reflexivity. }
  split; [rewrite !dom_insert_L, dom_empty_L; set_solver|]. split.
  - rewrite lookup_insert_ne, lookup_insert_eq by discriminate.
    destruct (props !! "prompt") as [v|]; [reflexivity|discriminate].
  - rewrite lookup_insert_eq. reflexivity.
Qed.

(** X7.  [startBatchTest] posts one request when the file can be put into
    the form and the threshold has a string, and none otherwise.  The
    request it posts is a form with the single entry [csv_file], to
    [/test/batch/start].  The threshold travels in the query string of the
    URL and nowhere else, as 0.7 when the argument is [undefined] and as the
    argument itself otherwise; the request's own [Content-Type],
    [multipart/form-data], stands in place of the client's default. *)
Theorem startBatchTest_request (file similarityThreshold : JsVal) (h : list Event) :
  let requests := http_requests (events (startBatchTest W file similarityThreshold h)) in
  length requests
  = (if match form_entry file with Some _ => true | None => false end &&
        prints similarityThreshold
     then 1 else 0) /\
  (forall req, In req requests ->
     exists entry,
       form_entry file = Some entry /\
       client req = api W /\
       method req = POST /\
       url req
       = "/test/batch/start?similarity_threshold=" +:+
         to_string (match similarityThreshold with
                    | JUndefined => JNumber 0.7%float
                    | _ => similarityThreshold
                    end) /\
       url_path (url req) = "/test/batch/start" /\
       params (config req) = ∅ /\
       headers (config req) !! "Content-Type" = Some "multipart/form-data" /\
       headers (config req) !! "Content-Type" <> default_headers (client req) !! "Content-Type" /\
       body req = FormBody [("csv_file", entry)] /\
       (forall filename, file = JFile filename -> entry = file)).
Proof.
  intros requests. subst requests.
  destruct (call_prints (StartBatchTest file similarityThreshold)) eqn:Hp.
  - simpl in Hp. rewrite Hp. apply andb_true_iff in Hp as [Hfile Hprints].
    destruct (form_entry file) as [entry|] eqn:Hentry; [|discriminate].
    rewrite (startBatchTest_run W file similarityThreshold entry h Hentry Hprints),
      one_request_requests by reflexivity.
    split; [reflexivity|]. intros req [<-|[]]. exists entry.
    simpl. repeat split; try reflexivity; try discriminate.
    intros filename ->. simpl in Hentry. congruence.
  - destruct (startBatchTest_stops W file similarityThreshold h Hp) as (e & ->).
    simpl in Hp. rewrite Hp. split; [reflexivity|]. intros req [].
Qed.

(** X8.  [indexGoogleDrive] posts an empty object to [/index/google-drive]
    with the parameters [recursive] and [enhanced_slides] always there,
    [true] and [false] when the arguments are [undefined] and the arguments
    themselves otherwise, and with [folder_id] exactly when the folder id is
    truthy. *)
Theorem indexGoogleDrive_params (folderId recursive enhancedSlides : JsVal) (h : list Event) :
  exists query,
    http_requests (events (indexGoogleDrive W folderId recursive enhancedSlides h))
    = [ {| client := api W; method := POST; url := "/index/google-drive";
           body := JsonBody (JObject ∅);
           config := {| params := query; headers := ∅ |} |} ] /\
    dom query
    = ({[ "recursive"; "enhanced_slides" ]} : gset string)
      ∪ (if truthy folderId then {[ "folder_id" ]} else ∅) /\
    query !! "recursive"
    = Some (match recursive with JUndefined => JBool true | _ => recursive end) /\
    query !! "enhanced_slides"
    = Some (match enhancedSlides with JUndefined => JBool false | _ => enhancedSlides end) /\
    query !! "folder_id" = (if truthy folderId then Some folderId else None).
Proof.
  eexists. split.
  { unfold indexGoogleDrive. cbv zeta. unfold axios_post.
    rewrite facade_body. apply one_request_requests. reflexivity. }
  rewrite truthy_default_null.
  assert (Hr : is_defined (default_param recursive (JBool true)) = true)
    by (destruct recursive; reflexivity).
  assert (He : is_defined (default_param enhancedSlides (JBool false)) = true)
    by (destruct enhancedSlides; reflexivity).
  rewrite Hr, He.
  destruct (truthy folderId) eqn:Hf; [rewrite (default_null_truthy _ Hf)|];
    (split; [rewrite !dom_insert_L, dom_empty_L; set_solver|]);
    repeat split; rewrite !lookup_insert; reflexivity.
Qed.


End ClientMore.

(** ** More facts about the test page *)

Section PageMore.
Import JobPage PageSpec.
Context `{JsEngine}.

Lemma prints_js_or_string (s : string) (d : JsVal) :
  prints d = true -> prints (js_or (JString s) d) = true.
Proof. intros Hd. unfold js_or. destruct (truthy (JString s)); [reflexivity|exact Hd]. Qed.

Ltac run :=
  first
    [ erewrite try_step by
        first [ reflexivity
              | apply get_prop_returns; assumption
              | apply str_returns; assumption
              | apply str_returns; apply prints_js_or_string; reflexivity ]
    | erewrite try_step_throw by
        first [ reflexivity
              | apply get_prop_throws; assumption
              | apply str_throws; assumption ] ].

Lemma status_prints_inv (jobData : JsVal) :
  status_prints jobData = true ->
  (if is_defined (read_prop jobData "progress")
   then prints (read_prop jobData "progress") else true) = true /\
  prints (read_prop jobData "status") = true /\
  prints (js_or (read_prop jobData "message") (JString "")) = true.
Proof. unfold status_prints. rewrite !andb_true_iff. tauto. Qed.

Lemma counts_print_inv (jobData : JsVal) :
  counts_print jobData = true ->
  prints (js_or (read_prop (js_or (read_prop jobData "result") (JObject ∅)) "total_tests")
                (JNumber 0%float)) = true /\
  prints (js_or (read_prop (js_or (read_prop jobData "result") (JObject ∅)) "passed")
                (JNumber 0%float)) = true /\
  prints (js_or (read_prop (js_or (read_prop jobData "result") (JObject ∅)) "failed")
                (JNumber 0%float)) = true.
Proof. unfold counts_print. cbv zeta. rewrite !andb_true_iff. tauto. Qed.

Lemma start_body_inv (o : FetchOutcome) (jobData : JsVal) :
  start_body o = Some jobData ->
  ok_body o = Some jobData /\
  is_nullish jobData = false /\
  prints (read_prop jobData "job_id") = true.
Proof.
  unfold start_body. destruct (ok_body o) as [body|]; [|discriminate].
  destruct (is_nullish body) eqn:Hn; simpl; [discriminate|].
  destruct (prints (read_prop body "job_id")) eqn:Hp; [|discriminate].
  intros [= <-]. auto.
Qed.

Lemma handles_in_order_step (p p' : Page) :
  handles_in_order p -> step p p' -> handles_in_order p'.
Proof.
  intros [Hlt Hpoll] Hstep. destruct Hstep as [files value p|o p|p|o p].
  - destruct files; exact (conj Hlt Hpoll).
  - pose proof (startButton_click_resume_polling o p) as Hp.
    unfold handles_in_order.
    rewrite (timers_polling (fst _)), Hp.
    change (next_timer (fst (startButton_click_resume o p)))
      with (p_next_timer (polling (fst (startButton_click_resume o p)))).
    change (pollInterval (fst (startButton_click_resume o p)))
      with (p_pollInterval (polling (fst (startButton_click_resume o p)))).
    rewrite Hp.
    destruct (ok_body o) as [jobData|];
      [destruct (is_nullish jobData);
       [|destruct (prints (read_prop jobData "job_id"))]|];
      simpl; try exact (conj Hlt Hpoll).
    split; [|reflexivity].
    intros handle t. rewrite lookup_insert. case_decide; [lia|].
    intros Ht. specialize (Hlt handle t Ht). lia.
  - pose proof (checkJobStatus_begin_polling p) as Hp.
    unfold handles_in_order.
    rewrite (timers_polling (fst _)), Hp.
    change (next_timer (fst (checkJobStatus_begin p)))
      with (p_next_timer (polling (fst (checkJobStatus_begin p)))).
    change (pollInterval (fst (checkJobStatus_begin p)))
      with (p_pollInterval (polling (fst (checkJobStatus_begin p)))).
    rewrite Hp. exact (conj Hlt Hpoll).
  - pose proof (checkJobStatus_polling o p) as Hp.
    unfold handles_in_order.
    rewrite (timers_polling (fst _)), Hp.
    change (next_timer (fst (checkJobStatus_resume o p)))
      with (p_next_timer (polling (fst (checkJobStatus_resume o p)))).
    change (pollInterval (fst (checkJobStatus_resume o p)))
      with (p_pollInterval (polling (fst (checkJobStatus_resume o p)))).
    rewrite Hp.
    destruct (ok_body o) as [jobData|];
      [destruct (is_terminal jobData && status_prints jobData)|];
      simpl; try exact (conj Hlt Hpoll).
    destruct (pollInterval p) as [kept|] eqn:Hk; simpl.
    + split; [|exact Hpoll].
      intros handle t. rewrite lookup_delete. case_decide; [discriminate|apply Hlt].
    + exact (conj Hlt Hpoll).
Qed.

Lemma handles_in_order_reachable (p : Page) : reachable p -> handles_in_order p.
Proof.
  induction 1 as [|p p' _ IH Hstep].
  - split; [|reflexivity]. intros handle t. simpl. rewrite lookup_empty. discriminate.
  - exact (handles_in_order_step p p' IH Hstep).
Qed.

Lemma reachable_rtc (p p' : Page) : reachable p -> rtc step p p' -> reachable p'.
Proof.
  intros Hr Hsteps. induction Hsteps as [|p q r Hstep _ IH]; [exact Hr|].
  apply IH. exact (reachable_step p q Hr Hstep).
Qed.

Lemma next_timer_fresh (p : Page) : reachable p -> timers p !! next_timer p = None.
Proof.
  intros Hr. destruct (timers p !! next_timer p) as [t|] eqn:Ht; [|reflexivity].
  destruct (handles_in_order_reachable p Hr) as [Hlt _]. specialize (Hlt _ _ Ht). lia.
Qed.

(** X9.  On every page the script can produce the handles are in order:
    each timer's handle is below the next one to be handed out, the handle
    kept in [pollInterval] is the last one handed out, and as long as
    [pollInterval] is [null] no timer exists.  So the start request
    settling never replaces a timer: the timers there stay, and one is
    added exactly when the start succeeds (an ok response whose body is
    not [null] and whose [job_id] has a string). *)
Theorem timers_are_never_replaced (p : Page) (o : FetchOutcome) :
  reachable p ->
  let q := fst (startButton_click_resume o p) in
  handles_in_order p /\
  timers p !! next_timer p = None /\
  keeps_timers p q /\
  size (timers q)
  = match start_body o with
    | Some _ => S (size (timers p))
    | None => size (timers p)
    end.
Proof.
  intros Hr q.
  pose proof (handles_in_order_reachable p Hr) as Hord.
  pose proof (next_timer_fresh p Hr) as Hfresh.
  split; [exact Hord|]. split; [exact Hfresh|].
  subst q. unfold start_body, keeps_timers.
  rewrite (timers_polling (fst _)), startButton_click_resume_polling.
  destruct (ok_body o) as [jobData|];
    [destruct (is_nullish jobData);
     [|destruct (prints (read_prop jobData "job_id"))]|];
    simpl; try (split; [intros handle t Ht; exact Ht|reflexivity]).
  split.
  - intros handle t Ht. rewrite lookup_insert_ne; [exact Ht|].
    intros <-. rewrite Hfresh in Ht. discriminate.
  - now apply map_size_insert_None.
Qed.

(** X10.  The script can clear only the timer whose handle it keeps.  A
    timer under any other handle is there for good: whatever happens to the
    page afterwards, it is still running, and the script never gets its
    handle back. *)
Theorem other_timers_are_never_cleared (p p' : Page) (handle : nat) (t : Timer) :
  reachable p ->
  timers p !! handle = Some t ->
  pollInterval p <> Some handle ->
  rtc step p p' ->
  timers p' !! handle = Some t /\ pollInterval p' <> Some handle.
Proof.
  intros Hr Ht Hk Hsteps.
  induction Hsteps as [|p q r Hstep _ IH]; [auto|].
  apply IH; [exact (reachable_step p q Hr Hstep)| |].
  - destruct Hstep as [files value p|o p|p|o p].
    + now rewrite startButton_click_polling.
    + rewrite timers_polling, startButton_click_resume_polling.
      destruct (ok_body o) as [jobData|];
        [destruct (is_nullish jobData);
         [|destruct (prints (read_prop jobData "job_id"))]|];
        simpl; try exact Ht.
      rewrite lookup_insert_ne; [exact Ht|].
      destruct (handles_in_order_reachable p Hr) as [Hlt _].
      specialize (Hlt _ _ Ht). lia.
    + now rewrite timers_polling, checkJobStatus_begin_polling.
    + rewrite timers_polling, checkJobStatus_polling.
      destruct (ok_body o) as [jobData|];
        [destruct (is_terminal jobData && status_prints jobData)|];
        simpl; try exact Ht.
      destruct (pollInterval p) as [kept|]; [|exact Ht].
      rewrite lookup_delete_ne; [exact Ht|congruence].
  - destruct Hstep as [files value p|o p|p|o p].
    + destruct files; exact Hk.
    + change (pollInterval (fst (startButton_click_resume o p)))
        with (p_pollInterval (polling (fst (startButton_click_resume o p)))).
      rewrite startButton_click_resume_polling.
      destruct (ok_body o) as [jobData|];
        [destruct (is_nullish jobData);
         [|destruct (prints (read_prop jobData "job_id"))]|];
        simpl; try exact Hk.
      destruct (handles_in_order_reachable p Hr) as [Hlt _].
      specialize (Hlt _ _ Ht). intros [= Heq]. lia.
    + change (pollInterval (fst (checkJobStatus_begin p)))
        with (p_pollInterval (polling (fst (checkJobStatus_begin p)))).
      rewrite checkJobStatus_begin_polling. exact Hk.
    + change (pollInterval (fst (checkJobStatus_resume o p)))
        with (p_pollInterval (polling (fst (checkJobStatus_resume o p)))).
      rewrite checkJobStatus_polling.
      destruct (ok_body o) as [jobData|];
        [destruct (is_terminal jobData && status_prints jobData)|];
        simpl; exact Hk.
Qed.

Lemma ok_body_inv (o : FetchOutcome) (jobData : JsVal) :
  ok_body o = Some jobData ->
  exists code text,
    o = FetchResolved {| ok := true; status := code; statusText := text;
                         json := JsonParsed jobData |}.
Proof.
  destruct o as [name message|[okay code text [v|name message]]]; simpl;
    try discriminate; destruct okay; try discriminate.
  intros [= ->]. eauto.
Qed.

Lemma js_or_object_not_nullish (v : JsVal) : is_nullish (js_or v (JObject ∅)) = false.
Proof.
  unfold js_or. destruct (truthy v) eqn:Hv; [|reflexivity].
  destruct v; try reflexivity; discriminate.
Qed.

(** X11.  A start that fails, the fetch rejected, the response not ok, or
    its body no JSON or [null], is printed with [console.error] and shown in
    the status element and the result box; the start button is enabled
    again, and no timer is created: timers, kept handle and job id are as
    they were before the click. *)
Theorem start_failure_enables_button (p : Page) (o : FetchOutcome) (e : JsVal) :
  start_error o = Some e ->
  let q := fst (startButton_click_resume o p) in
  polling q = enabled (polling p) /\
  console q = console p ++ [(LError, [JString "Error starting job:"; e])] /\
  jobStatus_textContent q = "Error: " +:+ to_string (read_prop e "message") /\
  resultDiv_innerHTML q = "<p>Error: " +:+ to_string (read_prop e "message") +:+ "</p>".
Proof.
  unfold startButton_click_resume, startButton_click_catch.
  destruct o as [name message|[okay code text [jobData|name message]]]; simpl start_error.
  - intros [= <-]. run. repeat split; reflexivity.
  - destruct okay.
    + destruct (is_nullish jobData) eqn:Hn; [|discriminate]. intros [= <-].
      run. simpl ok. simpl negb. cbv iota. run. run. run. repeat split; reflexivity.
    + intros [= <-]. run. simpl ok. simpl negb. cbv iota. run. repeat split; reflexivity.
  - destruct okay; intros [= <-]; run; simpl ok; simpl negb; cbv iota; run;
      try run; repeat split; reflexivity.
Qed.

(** X12.  When the start response carries no truthy [job_id], the poll loop
    is started all the same, the button stays as it is, and every tick
    returns at once without asking the backend: no status request is ever
    issued for this job. *)
Theorem start_without_job_id_polls_nothing (p : Page) (o : FetchOutcome) (jobData : JsVal) :
  ok_body o = Some jobData ->
  is_nullish jobData = false ->
  truthy (read_prop jobData "job_id") = false ->
  let q := fst (startButton_click_resume o p) in
  timers q !! next_timer p = Some {| callback := CheckJobStatus; delay := 5000 |} /\
  pollInterval q = Some (next_timer p) /\
  startButton_disabled q = startButton_disabled p /\
  checkJobStatus_start q = None.
Proof.
  intros Hbody Hn Hid q.
  pose proof (startButton_click_resume_polling o p) as Hp.
  rewrite Hbody, Hn, (falsy_value_prints _ Hid) in Hp. fold q in Hp.
  split; [rewrite timers_polling, Hp; apply lookup_insert_eq|].
  split; [exact (f_equal p_pollInterval Hp)|].
  split; [exact (f_equal p_disabled Hp)|].
  unfold checkJobStatus_start, checkJobStatus_begin.
  change (jobId q) with (p_jobId (polling q)). rewrite Hp. simpl. now rewrite Hid.
Qed.

(** X13.  A status response with status [failed] whose status line can be
    written, and whose error message (or [Unknown error] in its place) has
    a string, does not end in the catch block: nothing is printed, the
    status line is assigned to the status element, and the markup assigned
    to the result box carries the [message] of the response's [error], or
    [Unknown error] when there is no error or its message is falsy. *)
Theorem failed_status_is_shown (p : Page) (o : FetchOutcome) (jobData : JsVal) :
  ok_body o = Some jobData ->
  is_nullish jobData = false ->
  read_prop jobData "status" = JString "failed" ->
  status_prints jobData = true ->
  let error := read_prop jobData "error" in
  let message :=
    js_or (if is_nullish error then JUndefined else read_prop error "message")
          (JString "Unknown error") in
  prints message = true ->
  let r := checkJobStatus_resume o p in
  snd r = Returned tt /\
  console (fst r) = console p /\
  jobStatus_textContent (fst r)
  = "Status: failed - " +:+ to_string (js_or (read_prop jobData "message") (JString "")) /\
  resultDiv_innerHTML (fst r) = "<p>Job failed: " +:+ to_string message +:+ "</p>".
Proof.
  intros Hbody Hn Hs Hline error message Hmessage.
  subst error message. cbv zeta.
  destruct (ok_body_inv o jobData Hbody) as (code & text & ->).
  destruct (status_prints_inv jobData Hline) as (Hprogress & Hstatus & Htext).
  unfold checkJobStatus_resume.
  run. simpl ok. simpl negb. cbv iota. run. run. run.
  destruct (is_defined (read_prop jobData "progress"));
    [rewrite try_assoc; run; rewrite try_assoc; run; run|run];
    (do 6 run; rewrite Hs; simpl strict_eq_str; cbv iota;
     unfold clearInterval; do 4 run; unfold get_prop_opt;
     destruct (is_nullish (read_prop jobData "error")); run; run;
     simpl; destruct (pollInterval p); repeat split; reflexivity).
Qed.

(** X14.  A status response with status [completed] whose status line and
    counts can be written and whose [pass_rate] and [duration_seconds] are
    numbers or missing is rendered without an error: nothing is printed,
    the status line is assigned to the status element, and the markup
    assigned to the result box is that of the test results. *)
Theorem completed_status_is_rendered (p : Page) (o : FetchOutcome) (jobData : JsVal) :
  ok_body o = Some jobData ->
  is_nullish jobData = false ->
  read_prop jobData "status" = JString "completed" ->
  status_prints jobData = true ->
  counts_print jobData = true ->
  number_or_nullish
    (read_prop (js_or (read_prop jobData "result") (JObject ∅)) "pass_rate") = true ->
  number_or_nullish (read_prop jobData "duration_seconds") = true ->
  let r := checkJobStatus_resume o p in
  snd r = Returned tt /\
  console (fst r) = console p /\
  jobStatus_textContent (fst r)
  = "Status: completed - " +:+
    to_string (js_or (read_prop jobData "message") (JString "")) /\
  starts_with (newline +:+ "            <h3>Test Results</h3>")
    (resultDiv_innerHTML (fst r)) = true.
Proof.
  intros Hbody Hn Hs Hline Hcounts Hrate Hduration.
  destruct (ok_body_inv o jobData Hbody) as (code & text & ->).
  destruct (status_prints_inv jobData Hline) as (Hprogress & Hstatus & Htext).
  destruct (counts_print_inv jobData Hcounts) as (Htotal & Hpassed & Hfailed).
  pose proof (js_or_object_not_nullish (read_prop jobData "result")) as Hresult.
  cbv zeta. unfold checkJobStatus_resume.
  run. simpl ok. simpl negb. cbv iota. run. run. run.
  destruct (is_defined (read_prop jobData "progress"));
    [rewrite try_assoc; run; rewrite try_assoc; run; run|run];
    (do 6 run; rewrite Hs; simpl strict_eq_str; cbv iota;
     unfold clearInterval; do 11 run;
     destruct (read_prop (js_or (read_prop jobData "result") (JObject ∅)) "pass_rate");
     try discriminate Hrate;
     (run; run; run;
      destruct (read_prop jobData "duration_seconds"); try discriminate Hduration;
      run; run; simpl; destruct (pollInterval p); repeat split; reflexivity)).
Qed.

(** X15.  A status response with status [completed] whose status line and
    counts can be written and whose [pass_rate] is there but is no number
    ends in the catch block after the poll loop has been torn down: the
    interval is cleared and the button enabled, the [TypeError] is printed
    and assigned to the status element, and the result box is left as it
    was. *)
Theorem completed_status_with_bad_pass_rate (p : Page) (o : FetchOutcome) (jobData : JsVal) :
  ok_body o = Some jobData ->
  is_nullish jobData = false ->
  read_prop jobData "status" = JString "completed" ->
  status_prints jobData = true ->
  counts_print jobData = true ->
  number_or_nullish
    (read_prop (js_or (read_prop jobData "result") (JObject ∅)) "pass_rate") = false ->
  let q := fst (checkJobStatus_resume o p) in
  let error := JError "TypeError" (not_a_function_message "result.pass_rate.toFixed") in
  polling q = torn_down (polling p) /\
  console q = console p ++ [(LError, [JString "Error checking job status:"; error])] /\
  jobStatus_textContent q
  = "Error checking status: " +:+ not_a_function_message "result.pass_rate.toFixed" /\
  resultDiv_innerHTML q = resultDiv_innerHTML p.
Proof.
  intros Hbody Hn Hs Hline Hcounts Hrate q error. subst q error.
  assert (Hterm : is_terminal jobData = true).
  { unfold is_terminal. rewrite Hn, Hs. reflexivity. }
  split.
  { rewrite checkJobStatus_polling, Hbody, Hterm, Hline. reflexivity. }
  destruct (ok_body_inv o jobData Hbody) as (code & text & ->).
  destruct (status_prints_inv jobData Hline) as (Hprogress & Hstatus & Htext).
  destruct (counts_print_inv jobData Hcounts) as (Htotal & Hpassed & Hfailed).
  pose proof (js_or_object_not_nullish (read_prop jobData "result")) as Hresult.
  cbv zeta. unfold checkJobStatus_resume, checkJobStatus_catch.
  run. simpl ok. simpl negb. cbv iota. run. run. run.
  destruct (is_defined (read_prop jobData "progress"));
    [rewrite try_assoc; run; rewrite try_assoc; run; run|run];
    (do 6 run; rewrite Hs; simpl strict_eq_str; cbv iota;
     unfold clearInterval; do 11 run;
     destruct (read_prop (js_or (read_prop jobData "result") (JObject ∅)) "pass_rate");
     try discriminate Hrate;
     (run; simpl; destruct (pollInterval p); repeat split; reflexivity)).
Qed.

(** X16.  A status response that is not terminal and whose status line can
    be written changes the progress bar and the status line and nothing
    else: the text assigned to the bar's width is the response's
    [progress] followed by [%] when the response has a [progress], and
    nothing is assigned otherwise; the result box, the console and the
    alerts are as they were.  (What the browser makes of the width, such
    as dropping a text that is no length, is not part of this.) *)
Theorem running_status_updates_progress_only (p : Page) (o : FetchOutcome) (jobData : JsVal) :
  ok_body o = Some jobData ->
  is_nullish jobData = false ->
  is_terminal jobData = false ->
  status_prints jobData = true ->
  let r := checkJobStatus_resume o p in
  snd r = Returned tt /\
  progressBar_width (fst r)
  = (if is_defined (read_prop jobData "progress")
     then to_string (read_prop jobData "progress") +:+ "%"
     else progressBar_width p) /\
  jobStatus_textContent (fst r)
  = "Status: " +:+ to_string (read_prop jobData "status") +:+ " - " +:+
    to_string (js_or (read_prop jobData "message") (JString "")) /\
  resultDiv_innerHTML (fst r) = resultDiv_innerHTML p /\
  console (fst r) = console p /\
  alerts (fst r) = alerts p /\
  progressContainer_display (fst r) = progressContainer_display p.
Proof.
  intros Hbody Hn Hterm Hline. destruct (ok_body_inv o jobData Hbody) as (code & text & ->).
  destruct (status_prints_inv jobData Hline) as (Hprogress & Hstatus & Htext).
  unfold is_terminal in Hterm. rewrite Hn in Hterm. simpl in Hterm.
  apply orb_false_iff in Hterm as [Hc Hf].
  cbv zeta. unfold checkJobStatus_resume.
  run. simpl ok. simpl negb. cbv iota. run. run. run.
  destruct (is_defined (read_prop jobData "progress"));
    [rewrite try_assoc; run; rewrite try_assoc; run; run|run];
    (do 6 run; rewrite Hc, Hf; repeat split; reflexivity).
Qed.

(** X17.  A job from start to end leaves the timers as they were: when a
    start succeeds on a page the script has produced (an ok response whose
    body is not [null] and whose [job_id] has a string) and the next status
    check reports a terminal status in a response whose status line can be
    written, the timer the start created is the one cleared, every other
    timer is untouched, and the button is enabled. *)
Theorem job_leaves_no_timer (p : Page) (start check : FetchOutcome) (job jobData : JsVal) :
  reachable p ->
  start_body start = Some job ->
  ok_body check = Some jobData ->
  is_terminal jobData = true ->
  status_prints jobData = true ->
  let q := fst (checkJobStatus_resume check (fst (startButton_click_resume start p))) in
  timers q = timers p /\
  startButton_disabled q = false.
Proof.
  intros Hr Hstart Hcheck Hterm Hline q.
  destruct (start_body_inv start job Hstart) as (Hbody & Hn & Hid).
  assert (Hq : polling q = torn_down (started job (polling p))).
  { subst q. rewrite checkJobStatus_polling, Hcheck, Hterm, Hline.
    now rewrite startButton_click_resume_polling, Hbody, Hn, Hid. }
  split; [|exact (f_equal p_disabled Hq)].
  rewrite timers_polling, Hq. simpl. apply delete_insert_id.
  exact (next_timer_fresh p Hr).
Qed.

(** X19.  A start whose response is ok and carries a [job_id] that has
    no string fails after the job id has been stored: the [TypeError] is
    printed and shown, the button is enabled again, no timer is made and
    the kept handle stays, and the job id stays the one that cannot be
    printed, so that a tick asks the backend nothing. *)
Theorem start_with_unprintable_job_id (p : Page) (o : FetchOutcome) (jobData : JsVal) :
  ok_body o = Some jobData ->
  is_nullish jobData = false ->
  prints (read_prop jobData "job_id") = false ->
  let q := fst (startButton_click_resume o p) in
  let error := convert_error (read_prop jobData "job_id") in
  jobId q = read_prop jobData "job_id" /\
  timers q = timers p /\
  pollInterval q = pollInterval p /\
  startButton_disabled q = false /\
  console q = console p ++ [(LError, [JString "Error starting job:"; error])] /\
  jobStatus_textContent q = "Error: " +:+ cannot_convert_message (read_prop jobData "job_id") /\
  checkJobStatus_start q = None.
Proof.
  intros Hbody Hn Hid q error. subst q error.
  destruct (ok_body_inv o jobData Hbody) as (code & text & ->).
  assert (Hq : fst (startButton_click_resume
                      (FetchResolved {| ok := true; status := code; statusText := text;
                                        json := JsonParsed jobData |}) p)
               = with_startButton_disabled false
                   (with_resultDiv_innerHTML
                      ("<p>Error: " +:+ cannot_convert_message (read_prop jobData "job_id")
                       +:+ "</p>")
                      (with_jobStatus_textContent
                         ("Error: " +:+ cannot_convert_message (read_prop jobData "job_id"))
                         (with_console
                            (console p ++
                             [(LError, [JString "Error starting job:";
                                        convert_error (read_prop jobData "job_id")])])
                            (with_jobId (read_prop jobData "job_id") p))))).
  { unfold startButton_click_resume, startButton_click_catch.
    run. simpl ok. simpl negb. cbv iota. do 5 run. simpl jobId. run. reflexivity. }
  rewrite Hq. repeat split.
  unfold checkJobStatus_start, checkJobStatus_begin. simpl jobId.
  destruct (negb (truthy (read_prop jobData "job_id"))); [reflexivity|].
  unfold prints in Hid.
  destruct (ToString (read_prop jobData "job_id")); [discriminate|reflexivity].
Qed.

End PageMore.

(** ** More of the facts at work on the samples *)

Section WorkedMore.
Import Samples.
Existing Instance engine.

(** Without [REACT_APP_API_URL] the client talks to the local backend. *)
Lemma api_base_url_never_empty_witness :
  Client.baseURL (Client.api down) = JString "http://localhost:8005".
Proof.
  apply (api_base_url_never_empty down). left. reflexivity.
Defined.

(** The session id of a first answer, given to a second call. *)
Lemma sendMessage_session_round_trip_witness :
  length
    (Client.http_requests
       (Client.events
          (Client.sendMessage up (JString "and then?") JUndefined
             (JString "session_k3j9x2m1q8w5") JUndefined JUndefined [])))
  = 1 /\
  forall v',
    Client.result
      (Client.sendMessage up (JString "and then?") JUndefined
         (JString "session_k3j9x2m1q8w5") JUndefined JUndefined [])
    = Returned v' ->
    read_prop v' "session_id" = JString "session_k3j9x2m1q8w5".
Proof.
  destruct (sendMessage_session_round_trip up
              (JString "hi") JUndefined JUndefined JUndefined JUndefined
              (JObject (<[ "session_id" := JString "session_k3j9x2m1q8w5" ]>
                          (spread (Client.data answer))))
              []
              (JString "and then?") JUndefined JUndefined JUndefined [] eq_refl)
    as (_ & _ & Hlength & _ & Hreturned).
  split; [exact Hlength|exact Hreturned].
Defined.

(** [runTests("suites/nightly.csv")] is a batch test. *)
Lemma runTests_batch_iff_csv_witness :
  exists req,
    Client.http_requests
      (Client.events (Client.runTests up (JString "suites/nightly.csv") [])) = [req] /\
    Client.url req = "/chat/batch-test".
Proof.
  destruct (runTests_batch_iff_csv up (JString "suites/nightly.csv") [])
    as (req & Hreq & Hiff & _).
  exists req. split; [exact Hreq|].
  apply Hiff. exists "suites/nightly", "". reflexivity.
Defined.

(** [runTests({prompt: "capital of France?", expected_result: 0, id: 7})]:
    the falsy expectation becomes the empty string and [id] is dropped. *)
Lemma runTests_single_prompt_witness :
  exists payload : gmap string JsVal,
    payload !! "expected_result" = Some (JString "") /\
    dom payload = ({[ "prompt"; "expected_result" ]} : gset string).
Proof.
  assert (Hprompt :
    truthy (default JUndefined
              ((<[ "prompt" := JString "capital of France?" ]>
                  (<[ "expected_result" := JNumber 0%float ]>
                     (<[ "id" := JNumber 30%float ]> ∅)) : gmap string JsVal)
               !! "prompt")) = true) by reflexivity.
  destruct (runTests_single_prompt up _ [] Hprompt)
    as (payload & _ & Hdom & _ & Hexpected).
  exists payload. split; [exact Hexpected|exact Hdom].
Defined.

(** [startBatchTest(file)] sends the file itself. *)
Lemma startBatchTest_request_witness :
  length
    (Client.http_requests
       (Client.events (Client.startBatchTest up (JFile "tests.csv") JUndefined [])))
  = 1 /\
  exists req,
    In req
      (Client.http_requests
         (Client.events (Client.startBatchTest up (JFile "tests.csv") JUndefined []))) /\
    Client.body req = Client.FormBody [("csv_file", JFile "tests.csv")].
Proof.
  destruct (startBatchTest_request up (JFile "tests.csv") JUndefined []) as [Hlength Hreq].
  split; [exact Hlength|].
  assert (Hin :
    In {| Client.client := Client.api up; Client.method := Client.POST;
          Client.url := "/test/batch/start?similarity_threshold=0.7";
          Client.body := Client.FormBody [("csv_file", JFile "tests.csv")];
          Client.config :=
            {| Client.params := ∅;
               Client.headers := <[ "Content-Type" := "multipart/form-data" ]> ∅ |} |}
       (Client.http_requests
          (Client.events (Client.startBatchTest up (JFile "tests.csv") JUndefined []))))
    by (left; reflexivity).
  eexists. split; [exact Hin|].
  destruct (Hreq _ Hin) as (entry & _ & _ & _ & _ & _ & _ & _ & _ & Hbody & Hfile).
  rewrite Hbody, (Hfile "tests.csv" eq_refl). reflexivity.
Defined.

Lemma third_started_reachable : JobPage.reachable third_started.
Proof.
  apply (JobPage.reachable_step second_started); [|apply JobPage.step_started].
  apply (JobPage.reachable_step third_click); [|apply JobPage.step_started].
  apply (JobPage.reachable_step late_check); [|apply JobPage.step_click].
  apply (JobPage.reachable_step second_click); [|apply JobPage.step_checked].
  apply (JobPage.reachable_step first_done); [|apply JobPage.step_click].
  apply (JobPage.reachable_step polling_page); [|apply JobPage.step_checked].
  apply (JobPage.reachable_step clicked); [|apply JobPage.step_started].
  apply (JobPage.reachable_step JobPage.initial); [|apply JobPage.step_click].
  apply JobPage.reachable_initial.
Defined.

Lemma first_done_reachable : JobPage.reachable first_done.
Proof.
  apply (JobPage.reachable_step polling_page); [|apply JobPage.step_checked].
  apply (JobPage.reachable_step clicked); [|apply JobPage.step_started].
  apply (JobPage.reachable_step JobPage.initial); [|apply JobPage.step_click].
  apply JobPage.reachable_initial.
Defined.

Lemma clicked_reachable : JobPage.reachable clicked.
Proof.
  apply (JobPage.reachable_step JobPage.initial); [|apply JobPage.step_click].
  apply JobPage.reachable_initial.
Defined.

(** A second job started after the first is done gets a new handle. *)
Lemma timers_are_never_replaced_witness :
  JobPage.timers first_done !! JobPage.next_timer first_done = None /\
  size (JobPage.timers (fst (JobPage.startButton_click_resume job_started first_done)))
  = 1.
Proof.
  destruct (timers_are_never_replaced first_done job_started first_done_reachable)
    as (_ & Hfresh & _ & Hsize).
  split; [exact Hfresh|exact Hsize].
Defined.

(** After the run of [third_started] two timers exist and the script keeps
    the handle of the later one; the earlier one survives the end of the
    job. *)
Lemma other_timers_are_never_cleared_witness :
  JobPage.timers (fst (JobPage.checkJobStatus_resume job_completed third_started)) !! 2%nat
  = Some {| JobPage.callback := JobPage.CheckJobStatus; JobPage.delay := 5000 |}.
Proof.
  apply (other_timers_are_never_cleared third_started
           (fst (JobPage.checkJobStatus_resume job_completed third_started))
           2%nat
           {| JobPage.callback := JobPage.CheckJobStatus; JobPage.delay := 5000 |}).
  - exact third_started_reachable.
  - reflexivity.
  - discriminate.
  - apply rtc_once. apply JobPage.step_checked.
Defined.

(** The start endpoint answers 503. *)
Lemma start_failure_enables_button_witness :
  JobPage.startButton_disabled (fst (JobPage.startButton_click_resume unavailable clicked))
  = false /\
  JobPage.jobStatus_textContent (fst (JobPage.startButton_click_resume unavailable clicked))
  = "Error: Error starting job: 503 Service Unavailable".
Proof.
  destruct (start_failure_enables_button clicked unavailable
              (JError "Error" "Error starting job: 503 Service Unavailable") eq_refl)
    as (Hp & _ & Ht & _).
  split; [exact (f_equal PageSpec.p_disabled Hp)|exact Ht].
Defined.

(** The start response has no [job_id]. *)
Lemma start_without_job_id_polls_nothing_witness :
  JobPage.checkJobStatus_start (fst (JobPage.startButton_click_resume job_without_id clicked))
  = None.
Proof.
  apply (start_without_job_id_polls_nothing clicked job_without_id
           (JObject (<[ "queued" := JBool true ]> ∅)));
    reflexivity.
Defined.

(** The job reports [failed] with an error message. *)
Lemma failed_status_is_shown_witness :
  JobPage.resultDiv_innerHTML (fst (JobPage.checkJobStatus_resume job_failed polling_page))
  = "<p>Job failed: backend crashed</p>".
Proof.
  assert (Hbody : PageSpec.ok_body job_failed = Some failed) by reflexivity.
  assert (Hn : is_nullish failed = false) by reflexivity.
  assert (Hs : read_prop failed "status" = JString "failed") by reflexivity.
  assert (Hline : PageSpec.status_prints failed = true) by reflexivity.
  destruct (failed_status_is_shown polling_page job_failed failed Hbody Hn Hs Hline eq_refl)
    as (_ & _ & _ & Hresult).
  exact Hresult.
Defined.

(** The job reports [completed] without any result. *)
Lemma completed_status_is_rendered_witness :
  JobPage.console (fst (JobPage.checkJobStatus_resume job_completed polling_page))
  = JobPage.console polling_page.
Proof.
  apply (completed_status_is_rendered polling_page job_completed completed); reflexivity.
Defined.

(** The job reports [completed] with a [pass_rate] that is a string. *)
Lemma completed_status_with_bad_pass_rate_witness :
  JobPage.resultDiv_innerHTML
    (fst (JobPage.checkJobStatus_resume job_completed_badly polling_page))
  = JobPage.resultDiv_innerHTML polling_page.
Proof.
  apply (completed_status_with_bad_pass_rate polling_page job_completed_badly completed_badly);
    reflexivity.
Defined.

(** The job reports [running] at 30 percent. *)
Lemma running_status_updates_progress_only_witness :
  JobPage.progressBar_width (fst (JobPage.checkJobStatus_resume job_running polling_page))
  = "30%".
Proof.
  assert (Hbody : PageSpec.ok_body job_running = Some running) by reflexivity.
  assert (Hn : is_nullish running = false) by reflexivity.
  assert (Hterm : PageSpec.is_terminal running = false) by reflexivity.
  assert (Hline : PageSpec.status_prints running = true) by reflexivity.
  destruct (running_status_updates_progress_only polling_page job_running running
              Hbody Hn Hterm Hline)
    as (_ & Hwidth & _).
  exact Hwidth.
Defined.

(** The first job of the page, from start to end. *)
Lemma job_leaves_no_timer_witness :
  JobPage.timers (fst (JobPage.checkJobStatus_resume job_completed
                         (fst (JobPage.startButton_click_resume job_started clicked))))
  = JobPage.timers clicked.
Proof.
  apply (job_leaves_no_timer clicked job_started job_completed
           (JObject (<[ "job_id" := JString "job-1" ]> ∅)) completed);
    try reflexivity.
  exact clicked_reachable.
Defined.


(** The start response carries the job id [{toString: 0}]. *)
Lemma start_with_unprintable_job_id_witness :
  JobPage.timers (fst (JobPage.startButton_click_resume job_started_unprintable clicked))
  = ∅ /\
  JobPage.startButton_disabled
    (fst (JobPage.startButton_click_resume job_started_unprintable clicked))
  = false.
Proof.
  assert (Hbody :
    PageSpec.ok_body job_started_unprintable
    = Some (JObject (<[ "job_id" := unprintable ]> ∅))) by reflexivity.
  destruct (start_with_unprintable_job_id clicked job_started_unprintable
              (JObject (<[ "job_id" := unprintable ]> ∅)) Hbody eq_refl eq_refl)
    as (_ & Htimers & _ & Hdisabled & _).
  split; [exact Htimers|exact Hdisabled].
Defined.

End WorkedMore.
